(** * LNbits Scrum skill: the sprint-report aggregator and the API client

    A shallow embedding of the skill's main module (class
    [LnbitsScrumSkill], required as [./src/index]) and of [src/api.js]
    (class [LnbitsScrumClient]).

    Conventions of the embedding.
    - A JavaScript scalar is a [JsValue].  Numbers are the integers the Task
      data model speaks of (sats amounts, counts) and are carried in [Z];
      a [JNum n] is the JavaScript number [n] when [n] is a safe integer
      (at most 2^53 - 1 in magnitude), where printing and adding are exact.
      Fractions are not represented.  The reward counters are embedded a
      second time with the arithmetic of doubles (rounding, infinities,
      NaN); the theorems on rewards are stated on that embedding.
    - A JavaScript object with a fixed set of read properties is a record
      whose fields are [JsValue]s; a property that is missing reads as
      [JUndefined], as it does in JavaScript.
    - Objects built and sent by the code (headers, query parameters, request
      payloads) are finite maps from property names to values.
    - [async] methods run one [await] after the other; they are functions in
      a state-and-exception monad whose state holds the skill's [client]
      field, the remote service and the list of requests issued so far. *)

From Stdlib Require Import ZArith Ascii String List.
From stdpp Require Import base decidable option list strings gmap pretty.

Local Open Scope Z_scope.

(** ** JavaScript scalars *)

Inductive JsValue : Type :=
  | JUndefined
  | JNull
  | JBool (b : bool)
  | JNum (n : Z)
  | JStr (s : string).

#[global] Instance JsValue_eq_dec : EqDecision JsValue.
Proof. solve_decision. Defined.

(** ToBoolean: what [if (v)], [!v], [a || b] and [filter(a => a)] test. *)
Definition truthy (v : JsValue) : bool :=
  match v with
  | JUndefined | JNull => false
  | JBool b => b
  | JNum n => negb (n =? 0)
  | JStr s => negb (String.eqb s "")
  end.

(** [a || b] *)
Definition js_or (a b : JsValue) : JsValue := if truthy a then a else b.

(** [a ?? b] *)
Definition js_nullish (a b : JsValue) : JsValue :=
  match a with
  | JUndefined | JNull => b
  | _ => a
  end.

(** [a === b] on scalars *)
Definition strict_eq (a b : JsValue) : bool := bool_decide (a = b).

(** ToString, as applied by template literals.  A number is printed as its
    decimal numeral, which is how JavaScript prints a safe integer; larger
    numbers, which it prints with rounded digits or an exponent, are
    outside what this function renders. *)
Definition toString (v : JsValue) : string :=
  match v with
  | JUndefined => "undefined"
  | JNull => "null"
  | JBool true => "true"
  | JBool false => "false"
  | JNum n => pretty n
  | JStr s => s
  end.

(** ** parseInt *)

(** White space among the ASCII characters: TAB, LF, VT, FF, CR, SP.
    [parseInt] also skips the white space beyond ASCII; the theorems on
    rewards keep to ASCII strings. *)
Definition isWhiteSpace (c : ascii) : bool :=
  let n := nat_of_ascii c in
  (Nat.eqb n 9 || Nat.eqb n 10 || Nat.eqb n 11 || Nat.eqb n 12
   || Nat.eqb n 13 || Nat.eqb n 32)%bool.

Definition digitValue (c : ascii) : option Z :=
  let n := Z.of_nat (nat_of_ascii c) in
  if ((48 <=? n) && (n <=? 57))%bool then Some (n - 48)
  else if ((97 <=? n) && (n <=? 122))%bool then Some (n - 87)
  else if ((65 <=? n) && (n <=? 90))%bool then Some (n - 55)
  else None.

Definition radixDigit (R : Z) (c : ascii) : option Z :=
  match digitValue c with
  | Some d => if d <? R then Some d else None
  | None => None
  end.

Fixpoint skipWhiteSpace (s : string) : string :=
  match s with
  | String c s' => if isWhiteSpace c then skipWhiteSpace s' else s
  | EmptyString => s
  end.

(** The longest prefix of radix-[R] digits, read as a number; [acc] is
    [None] until a digit has been read. *)
Fixpoint readDigits (R : Z) (s : string) (acc : option Z) : option Z :=
  match s with
  | String c s' =>
      match radixDigit R c with
      | Some d => readDigits R s' (Some (default 0 acc * R + d))
      | None => acc
      end
  | EmptyString => acc
  end.

Definition stripSign (s : string) : Z * string :=
  match s with
  | String "-" s' => (-1, s')
  | String "+" s' => (1, s')
  | _ => (1, s)
  end.

Definition stripRadixPrefix (s : string) : Z * string :=
  match s with
  | String "0" (String "x" s') => (16, s')
  | String "0" (String "X" s') => (16, s')
  | _ => (10, s)
  end.

(** [parseInt(string)] with no radix argument; [None] is NaN. *)
Definition parseIntString (s : string) : option Z :=
  let '(sign, s1) := stripSign (skipWhiteSpace s) in
  let '(R, s2) := stripRadixPrefix s1 in
  match readDigits R s2 None with
  | Some n => Some (sign * n)
  | None => None
  end.

(** [parseInt(v)]: the argument goes through ToString first.  A safe
    integer prints as its decimal numeral, which reads back as itself; the
    result is the integer read, not yet rounded to a double (for that, and
    for what is outside, see [parseIntNumber]). *)
Definition parseInt (v : JsValue) : option Z :=
  match v with
  | JNum n => Some n
  | _ => parseIntString (toString v)
  end.

(** [parseInt(v) || 0]: NaN and 0 are both falsy. *)
Definition parseIntOrZero (v : JsValue) : Z := default 0 (parseInt v).

(** ** Records read by the aggregator *)

Record Task : Type := mkTask {
  task_id : JsValue;
  task_text : JsValue;
  assignee : JsValue;
  stage : JsValue;
  reward : JsValue;
  notes : JsValue
}.

#[global] Instance Task_eq_dec : EqDecision Task.
Proof. solve_decision. Defined.

Record ScrumBoard : Type := mkBoard {
  board_id : JsValue;
  board_name : JsValue;
  board_description : JsValue
}.

(** [tasks.items]: an array of task records, or a missing (falsy) property. *)
Inductive Items : Type :=
  | ItemsArray (ts : list Task)
  | ItemsMissing.

(** What [getTasksForScrum] hands to the report: an object carrying [items]
    and [total], a bare array, or no body at all ([null] or [undefined],
    on which reading a property throws). *)
Inductive TasksBody : Type :=
  | Envelope (items : Items) (total : JsValue)
  | BareArray (ts : list Task)
  | NoBody.

(** ** The report under construction

    The two reward counters are kept as integers here; the code's are
    doubles, embedded as [RewardCounters] further down.  The two agree on
    exact rewards. *)

Record Report : Type := mkReport {
  totalTasks : JsValue;
  todo : list Task;
  doing : list Task;
  done : list Task;
  assigneeSet : list JsValue;   (* a Set, in insertion order *)
  totalReward : Z;
  completedReward : Z
}.

(** [Set.prototype.add]: a value already in the set keeps its place. *)
Definition set_add (x : JsValue) (s : list JsValue) : list JsValue :=
  if decide (x ∈ s) then s else s ++ [x].

Definition addReward (task : Task) (r : Report) : Report :=
  if truthy (reward task) then
    mkReport (totalTasks r) (todo r) (doing r) (done r) (assigneeSet r)
      (totalReward r + parseIntOrZero (reward task))
      (if strict_eq (stage task) (JStr "done")
       then completedReward r + parseIntOrZero (reward task)
       else completedReward r)
  else r.

Definition routeTask (task : Task) (r : Report) : Report :=
  if strict_eq (stage task) (JStr "todo") then
    mkReport (totalTasks r) (todo r ++ [task]) (doing r) (done r)
      (assigneeSet r) (totalReward r) (completedReward r)
  else if strict_eq (stage task) (JStr "doing") then
    mkReport (totalTasks r) (todo r) (doing r ++ [task]) (done r)
      (assigneeSet r) (totalReward r) (completedReward r)
  else if strict_eq (stage task) (JStr "done") then
    mkReport (totalTasks r) (todo r) (doing r) (done r ++ [task])
      (assigneeSet r) (totalReward r) (completedReward r)
  else r.

Definition addAssignee (task : Task) (r : Report) : Report :=
  mkReport (totalTasks r) (todo r) (doing r) (done r)
    (set_add (assignee task) (assigneeSet r))
    (totalReward r) (completedReward r).

(** The closure [processTask] of [generateSprintReport]; the report it
    mutates is threaded through. *)
Definition processTask (r : Report) (task : Task) : Report :=
  routeTask task (addReward task (addAssignee task r)).

(** [tasks.items?.length] *)
Definition itemsLength (i : Items) : JsValue :=
  match i with
  | ItemsArray ts => JNum (Z.of_nat (length ts))
  | ItemsMissing => JUndefined
  end.

(** [tasks.total || tasks.items?.length || 0]; a bare array has neither
    property. *)
Definition initialTotal (tasks : TasksBody) : JsValue :=
  match tasks with
  | Envelope items total => js_or (js_or total (itemsLength items)) (JNum 0)
  | _ => JNum 0
  end.

Definition initialReport (tasks : TasksBody) : Report :=
  mkReport (initialTotal tasks) [] [] [] [] 0 0.

Definition setTotalTasks (n : JsValue) (r : Report) : Report :=
  mkReport n (todo r) (doing r) (done r) (assigneeSet r)
    (totalReward r) (completedReward r).

Record Rewards : Type := mkRewards {
  total : Z;
  completed : Z;
  pending : Z
}.

Record SprintReport (B : Type) : Type := mkSprintReport {
  scrumBoard : B;
  report : Report;
  assignees : list JsValue;
  rewards : Rewards
}.
Arguments mkSprintReport {B}.
Arguments scrumBoard {B}.
Arguments report {B}.
Arguments assignees {B}.
Arguments rewards {B}.

(** ** Exceptions and the monad of [async] methods *)

Record Error : Type := mkError {
  error_name : string;
  message : string
}.

Inductive Outcome (A : Type) : Type :=
  | Return (a : A)
  | Throw (e : Error).
Arguments Return {A}.
Arguments Throw {A}.

Definition TypeError_null (prop : string) : Error :=
  mkError "TypeError" ("Cannot read properties of null (reading '" +:+ prop +:+ "')").

(** ** The aggregation of [generateSprintReport]

    Everything [generateSprintReport] does once its two awaits have
    delivered the board and the task listing. *)

Definition finalize {B : Type} (board : B) (r : Report) : SprintReport B :=
  mkSprintReport board r
    (filter (fun a => truthy a = true) (assigneeSet r))
    (mkRewards (totalReward r) (completedReward r)
       (totalReward r - completedReward r)).

Definition aggregate {B : Type} (board : B) (tasks : TasksBody)
  : Outcome (SprintReport B) :=
  match tasks with
  | NoBody => Throw (TypeError_null "total")
  | Envelope (ItemsArray ts) _ =>
      Return (finalize board (fold_left processTask ts (initialReport tasks)))
  | Envelope ItemsMissing _ =>
      Return (finalize board (initialReport tasks))
  | BareArray ts =>
      Return (finalize board
                (setTotalTasks (JNum (Z.of_nat (length ts)))
                   (fold_left processTask ts (initialReport tasks))))
  end.

(** ** Configuration, requests and the remote service *)

Record Config : Type := mkConfig {
  lnbits_url : JsValue;
  access_token : JsValue;
  admin_key : JsValue;
  user_id : JsValue;
  usr : JsValue;
  wallet_id : JsValue
}.

Inductive Method : Type := GET | POST | PUT | DELETE.

Record Request : Type := mkRequest {
  req_method : Method;
  req_baseURL : string;
  req_path : string;
  req_headers : gmap string string;
  req_params : gmap string JsValue;
  req_payload : option (gmap string JsValue)
}.

(** Bodies the service answers with. *)
Inductive Data : Type :=
  | DBoard (b : ScrumBoard)
  | DTask (t : Task)
  | DTasks (b : TasksBody)
  | DScalar (v : JsValue).

(** An axios call resolves with [response.data] or rejects with an error
    carrying [response?.data?.detail] and [message]. *)
Inductive Response : Type :=
  | Resolved (data : Data)
  | Rejected (detail : JsValue) (msg : string).

(** How the report reads a body as [tasks]: an object of another kind has
    neither [items] nor [total]; [null] and [undefined] have no properties. *)
Definition asTasksBody (d : Data) : TasksBody :=
  match d with
  | DTasks b => b
  | DBoard _ | DTask _ => Envelope ItemsMissing JUndefined
  | DScalar JNull | DScalar JUndefined => NoBody
  | DScalar _ => Envelope ItemsMissing JUndefined
  end.

(** ** [LnbitsScrumClient] *)

Record Client : Type := mkClient {
  client_config : Config;
  baseURL : JsValue;
  accessToken : JsValue;
  userId : JsValue;
  walletId : JsValue;
  api_baseURL : string;
  api_headers : gmap string string
}.

(** The constructor. *)
Definition newClient (config : Config) : Client :=
  let baseURL := js_or (lnbits_url config) (JStr "https://demo.lnbits.com") in
  let accessToken := access_token config in
  let userId := js_or (user_id config) (usr config) in
  let walletId := wallet_id config in
  let headers : gmap string string := {[ "Content-Type" := "application/json" ]} in
  let headers :=
    if truthy accessToken
    then <[ "Authorization" := "Bearer " +:+ toString accessToken ]> headers
    else headers in
  mkClient config baseURL accessToken userId walletId
    (toString baseURL +:+ "/scrum/api/v1") headers.

Definition buildParams (c : Client) (additionalParams : gmap string JsValue)
  : gmap string JsValue :=
  let params := additionalParams in
  if truthy (userId c) then <[ "usr" := userId c ]> params else params.

(** [this.api.<method>(path, payload, { params })] *)
Definition apiRequest (c : Client) (m : Method) (path : string)
    (payload : option (gmap string JsValue)) (params : gmap string JsValue)
  : Request :=
  mkRequest m (api_baseURL c) path (api_headers c) params payload.

Record BoardOptions : Type := mkOptions {
  publicAssigning : JsValue;
  publicTasks : JsValue;
  publicDeleteTasks : JsValue
}.

(** A parameter default [p = d] applies when the argument is [undefined]. *)
Definition defaultParam (d v : JsValue) : JsValue :=
  match v with
  | JUndefined => d
  | _ => v
  end.

Definition createScrumBoard_payload (c : Client) (name description : JsValue)
    (options : BoardOptions) : gmap string JsValue :=
  {[ "name" := name;
     "description" := description;
     "public_assigning" := js_nullish (publicAssigning options) (JBool false);
     "public_tasks" := js_nullish (publicTasks options) (JBool false);
     "public_delete_tasks" := js_nullish (publicDeleteTasks options) (JBool false);
     "wallet" := js_or (walletId c) JUndefined ]}.

Definition createTask_payload (scrumId taskDescription assignee reward notes : JsValue)
  : gmap string JsValue :=
  let assignee := defaultParam (JStr "") assignee in
  let notes := defaultParam (JStr "") notes in
  let payload : gmap string JsValue :=
    {[ "task" := taskDescription;
       "scrum_id" := scrumId;
       "assignee" := js_or assignee (JStr "");
       "stage" := JStr "todo" ]} in
  let payload :=
    if strict_eq reward JUndefined then payload
    else <[ "reward" := reward ]> payload in
  if truthy notes then <[ "notes" := notes ]> payload else payload.

(** One constructor per method of the client, with its arguments. *)
Inductive Call : Type :=
  | CreateScrumBoard (name description : JsValue) (options : BoardOptions)
  | GetScrumBoard (scrumId : JsValue)
  | ListScrumBoards (limit offset : JsValue)
  | DeleteScrumBoard (scrumId : JsValue)
  | CreateTask (scrumId taskDescription assignee reward notes : JsValue)
  | UpdateTask (taskId : JsValue) (updates : gmap string JsValue)
  | GetTask (taskId : JsValue)
  | GetTasksForScrum (scrumId limit offset : JsValue)
  | DeleteTask (taskId : JsValue).

(** The request each method passes to axios. *)
Definition requestOf (c : Client) (call : Call) : Request :=
  match call with
  | CreateScrumBoard name description options =>
      apiRequest c POST "/scrum"
        (Some (createScrumBoard_payload c name description options))
        (buildParams c ∅)
  | GetScrumBoard scrumId =>
      apiRequest c GET ("/scrum/" +:+ toString scrumId) None (buildParams c ∅)
  | ListScrumBoards limit offset =>
      apiRequest c GET "/scrum/paginated" None
        (buildParams c
           {[ "limit" := defaultParam (JNum 100) limit;
              "offset" := defaultParam (JNum 0) offset ]})
  | DeleteScrumBoard scrumId =>
      apiRequest c DELETE ("/scrum/" +:+ toString scrumId) None (buildParams c ∅)
  | CreateTask scrumId taskDescription assignee reward notes =>
      apiRequest c POST "/tasks"
        (Some (createTask_payload scrumId taskDescription assignee reward notes))
        (buildParams c ∅)
  | UpdateTask taskId updates =>
      apiRequest c PUT ("/tasks/" +:+ toString taskId) (Some updates)
        (buildParams c ∅)
  | GetTask taskId =>
      apiRequest c GET ("/tasks/" +:+ toString taskId) None (buildParams c ∅)
  | GetTasksForScrum scrumId limit offset =>
      apiRequest c GET "/tasks/paginated" None
        (buildParams c
           {[ "scrum_id" := scrumId;
              "limit" := defaultParam (JNum 100) limit;
              "offset" := defaultParam (JNum 0) offset ]})
  | DeleteTask taskId =>
      apiRequest c DELETE ("/tasks/" +:+ toString taskId) None (buildParams c ∅)
  end.

(** The text each method's [catch] puts before the upstream detail. *)
Definition failurePrefix (call : Call) : string :=
  match call with
  | CreateScrumBoard _ _ _ => "Failed to create scrum board: "
  | GetScrumBoard _ => "Failed to get scrum board: "
  | ListScrumBoards _ _ => "Failed to list scrum boards: "
  | DeleteScrumBoard _ => "Failed to delete scrum board: "
  | CreateTask _ _ _ _ _ => "Failed to create task: "
  | UpdateTask _ _ => "Failed to update task: "
  | GetTask _ => "Failed to get task: "
  | GetTasksForScrum _ _ _ => "Failed to get tasks for scrum: "
  | DeleteTask _ => "Failed to delete task: "
  end.

(** ** The state the methods run in *)

Section Skill.

(** The remote service: an abstract state and its reaction to a request. *)
Context {Net : Type}.
Variable send : Request -> Net -> Response * Net.

(** [client] is the skill's [this.client]; [sent] records every request
    handed to the transport, oldest first. *)
Record State : Type := mkState {
  config : Config;
  client : option Client;
  net : Net;
  sent : list Request
}.

Definition M (A : Type) : Type := State -> Outcome A * State.

Definition ret {A} (a : A) : M A := fun st => (Return a, st).

Definition throw {A} (e : Error) : M A := fun st => (Throw e, st).

Definition bind {A B} (m : M A) (k : A -> M B) : M B :=
  fun st =>
    match m st with
    | (Return a, st') => k a st'
    | (Throw e, st') => (Throw e, st')
    end.

(** [try { m } catch (error) { h error }] *)
Definition try_catch {A} (m : M A) (h : Error -> M A) : M A :=
  fun st =>
    match m st with
    | (Return a, st') => (Return a, st')
    | (Throw e, st') => h e st'
    end.

Definition liftOutcome {A} (o : Outcome A) : M A := fun st => (o, st).

Notation "x <- m ;; k" := (bind m (fun x => k))
  (at level 100, m at next level, right associativity).

(** The transport: the request goes out, the service answers. *)
Definition axios (r : Request) : M Response :=
  fun st =>
    let '(resp, n) := send r (net st) in
    (Return resp, mkState (config st) (client st) n (sent st ++ [r])).

(** A client method: [try { return (await this.api...).data } catch ...]. *)
Definition clientCall (c : Client) (call : Call) : M Data :=
  resp <- axios (requestOf c call) ;;
  match resp with
  | Resolved data => ret data
  | Rejected detail msg =>
      throw (mkError "Error"
               (failurePrefix call +:+ toString (js_or detail (JStr msg))))
  end.

(** ** [LnbitsScrumSkill] *)

Definition configErrorMessage : string :=
  "LNbits Scrum skill requires authentication. " +:+
  "Provide access_token (Bearer) OR admin_key (X-Api-Key) OR user_id/usr (query param). " +:+
  "See README.md for configuration details.".

Definition initialize : M unit :=
  fun st =>
    let cfg := config st in
    if (negb (truthy (access_token cfg)) && negb (truthy (admin_key cfg))
        && negb (truthy (user_id cfg)) && negb (truthy (usr cfg)))%bool
    then (Throw (mkError "Error" configErrorMessage), st)
    else (Return tt,
          mkState cfg (Some (newClient cfg)) (net st) (sent st)).

(** [if (!this.client) this.initialize(); return await this.client.m(...)],
    the body of every plain method of the skill. *)
Definition skillCall (call : Call) : M Data :=
  fun st =>
    match client st with
    | Some c => clientCall c call st
    | None =>
        match initialize st with
        | (Return _, st') =>
            match client st' with
            | Some c => clientCall c call st'
            | None => (Throw (TypeError_null "client"), st')
            end
        | (Throw e, st') => (Throw e, st')
        end
    end.

Definition createScrumBoard name description options : M Data :=
  skillCall (CreateScrumBoard name description options).
Definition getScrumBoard scrumId : M Data :=
  skillCall (GetScrumBoard scrumId).
Definition listScrumBoards : M Data :=
  skillCall (ListScrumBoards JUndefined JUndefined).
Definition deleteScrumBoard scrumId : M Data :=
  skillCall (DeleteScrumBoard scrumId).
Definition createTask scrumId taskDescription assignee reward notes : M Data :=
  skillCall (CreateTask scrumId taskDescription
               (defaultParam (JStr "") assignee) reward
               (defaultParam (JStr "") notes)).
Definition updateTask taskId updates : M Data :=
  skillCall (UpdateTask taskId updates).
Definition getTask taskId : M Data :=
  skillCall (GetTask taskId).
Definition getTasksForScrum scrumId : M Data :=
  skillCall (GetTasksForScrum scrumId JUndefined JUndefined).
Definition deleteTask taskId : M Data :=
  skillCall (DeleteTask taskId).

(** *** GitHub import *)

Record Issue : Type := mkIssue {
  title : JsValue;
  repository : JsValue;
  number : JsValue;
  issue_assignee : JsValue;
  url : JsValue
}.

(** [{ success: true, task, issue }] or
    [{ success: false, error: error.message, issue }] *)
Inductive ImportResult : Type :=
  | Imported (task : Data) (issue : Issue)
  | NotImported (error : string) (issue : Issue).

Definition success (r : ImportResult) : bool :=
  match r with
  | Imported _ _ => true
  | NotImported _ _ => false
  end.

Definition result_issue (r : ImportResult) : Issue :=
  match r with
  | Imported _ i => i
  | NotImported _ i => i
  end.

Definition issueDescription (issue : Issue) : JsValue :=
  JStr (toString (title issue) +:+ " (" +:+ toString (repository issue)
        +:+ "/" +:+ toString (number issue) +:+ ")").

Definition issueNotes (issue : Issue) : JsValue :=
  JStr ("Imported from GitHub: " +:+ toString (url issue)).

(** One turn of the [for] loop: the [try]/[catch] around [createTask]. *)
Definition importIssue (scrumId defaultReward : JsValue) (issue : Issue)
  : M ImportResult :=
  try_catch
    (task <- createTask scrumId (issueDescription issue)
               (js_or (issue_assignee issue) (JStr "")) defaultReward
               (issueNotes issue) ;;
     ret (Imported task issue))
    (fun error => ret (NotImported (message error) issue)).

Fixpoint importLoop (scrumId defaultReward : JsValue)
    (githubIssues : list Issue) (results : list ImportResult)
  : M (list ImportResult) :=
  match githubIssues with
  | [] => ret results
  | issue :: rest =>
      r <- importIssue scrumId defaultReward issue ;;
      importLoop scrumId defaultReward rest (results ++ [r])
  end.

Definition addGithubIssuesToSprint (githubIssues : list Issue)
    (scrumId defaultReward : JsValue) : M (list ImportResult) :=
  importLoop scrumId defaultReward githubIssues [].

(** *** Reporting *)

Definition generateSprintReport (scrumId : JsValue) : M (SprintReport Data) :=
  scrumBoard <- getScrumBoard scrumId ;;
  tasks <- getTasksForScrum scrumId ;;
  liftOutcome (aggregate scrumBoard (asTasksBody tasks)).

(** *** Weekly sprints *)

Definition createWeeklySprint (weekNumber description : JsValue) : M Data :=
  let name := JStr ("Week " +:+ toString weekNumber +:+ " Sprint") in
  let options := mkOptions (JBool true) (JBool false) (JBool false) in
  createScrumBoard name description options.

(** *** A caller

    Methods invoked one after the other on the same skill object, the
    caller catching whatever each of them throws. *)
Fixpoint runCalls (calls : list Call) (st : State)
  : list (Outcome Data) * State :=
  match calls with
  | [] => ([], st)
  | call :: rest =>
      let '(o, st1) := skillCall call st in
      let '(os, st') := runCalls rest st1 in
      (o :: os, st')
  end.

(** *** The import, entry by entry

    [Attempts st issues results st'] : starting in [st], task creation is
    run once for each issue in turn, each run in the state the previous one
    left, whatever its outcome; the entry of an issue records the task
    created for it or the message of the error its run threw. *)
Inductive Attempts (scrumId defaultReward : JsValue)
  : State -> list Issue -> list ImportResult -> State -> Prop :=
  | attempts_nil st : Attempts scrumId defaultReward st [] [] st
  | attempts_created st issue task st1 rest rs st' :
      createTask scrumId (issueDescription issue)
        (js_or (issue_assignee issue) (JStr "")) defaultReward
        (issueNotes issue) st = (Return task, st1) ->
      Attempts scrumId defaultReward st1 rest rs st' ->
      Attempts scrumId defaultReward st (issue :: rest)
        (Imported task issue :: rs) st'
  | attempts_failed st issue e st1 rest rs st' :
      createTask scrumId (issueDescription issue)
        (js_or (issue_assignee issue) (JStr "")) defaultReward
        (issueNotes issue) st = (Throw e, st1) ->
      Attempts scrumId defaultReward st1 rest rs st' ->
      Attempts scrumId defaultReward st (issue :: rest)
        (NotImported (message e) issue :: rs) st'.

End Skill.

Arguments State Net : clear implicits.

(** * Properties of the aggregator *)

(** ** Vocabulary of the statements *)

Definition sumZ (l : list Z) : Z := foldr Z.add 0 l.

Definition hasStage (s : string) (t : Task) : Prop := stage t = JStr s.

#[global] Instance hasStage_dec s t : Decision (hasStage s t).
Proof. unfold hasStage. apply _. Defined.

Definition recognizedStage (t : Task) : Prop :=
  hasStage "todo" t \/ hasStage "doing" t \/ hasStage "done" t.

#[global] Instance recognizedStage_dec t : Decision (recognizedStage t).
Proof. unfold recognizedStage. apply _. Defined.

(** The integer a reward stands for: a number is itself, a string is the
    integer [parseInt] finds at its head, everything else is nothing. *)
Definition rewardValue (v : JsValue) : Z :=
  match v with
  | JNum n => n
  | JStr s => default 0 (parseIntString s)
  | _ => 0
  end.

(** Distinct values, each at the place of its first occurrence. *)
Fixpoint firstSeen (l : list JsValue) : list JsValue :=
  match l with
  | [] => []
  | x :: l' => x :: filter (fun y => y <> x) (firstSeen l')
  end.

Definition isString (v : JsValue) : Prop :=
  match v with JStr _ => True | _ => False end.

#[global] Instance isString_dec v : Decision (isString v).
Proof. destruct v; simpl; apply _. Defined.

Definition nonEmptyString (v : JsValue) : Prop :=
  match v with JStr s => s <> "" | _ => False end.

#[global] Instance nonEmptyString_dec v : Decision (nonEmptyString v).
Proof. destruct v; simpl; apply _. Defined.

(** The task sequence a listing carries, in either of its two shapes. *)
Inductive carries : TasksBody -> list Task -> Prop :=
  | carries_envelope ts total : carries (Envelope (ItemsArray ts) total) ts
  | carries_array ts : carries (BareArray ts) ts.

(** The count a listing ends up with. *)
Definition listingCount (tasks : TasksBody) (ts : list Task) : JsValue :=
  match tasks with
  | Envelope _ total => if truthy total then total else JNum (Z.of_nat (length ts))
  | _ => JNum (Z.of_nat (length ts))
  end.

(** A report whose derived fields are those of the task sequence [ts]. *)
Record Summarises {B : Type} (ts : list Task) (rep : SprintReport B) : Prop := {
  sum_todo : todo (report rep) = filter (hasStage "todo") ts;
  sum_doing : doing (report rep) = filter (hasStage "doing") ts;
  sum_done : done (report rep) = filter (hasStage "done") ts;
  sum_assignees :
    assignees rep = firstSeen (filter (fun a => truthy a = true) (map assignee ts));
  sum_total :
    total (rewards rep) = sumZ (map (fun t => rewardValue (reward t)) ts);
  sum_completed :
    completed (rewards rep)
    = sumZ (map (fun t => rewardValue (reward t)) (filter (hasStage "done") ts));
  sum_pending :
    pending (rewards rep) = total (rewards rep) - completed (rewards rep)
}.

(** ** The reward counters, in the arithmetic of JavaScript numbers

    [report.totalReward] and [report.completedReward] are JavaScript
    numbers: doubles.  What the loop adds to them is [parseInt(...) || 0],
    an integer, an infinity or (from NaN) 0, so that the counters only ever
    hold integer-valued doubles, the two infinities and NaN.  This part
    embeds the counters with that arithmetic.  The integer fields of
    [Report] agree with it as long as every addition is exact, which the
    theorems on rewards state as a hypothesis. *)

Definition MAX_SAFE_INTEGER : Z := 2 ^ 53 - 1.

(** An integer-valued double, an infinity or NaN; the two zeros are one. *)
Inductive JsNumber : Type :=
  | Finite (z : Z)
  | PlusInfinity
  | MinusInfinity
  | NotANumber.

(** A magnitude of 2^53 or more, rounded to 53 significant bits, ties to
    the even significand. *)
Definition roundMagnitude (a : Z) : Z :=
  let e := Z.log2 a - 52 in
  let q := Z.shiftr a e in
  let r := a - Z.shiftl q e in
  let half := Z.shiftl 1 (e - 1) in
  let q' :=
    if r <? half then q
    else if half <? r then q + 1
    else if Z.even q then q else q + 1 in
  Z.shiftl q' e.

(** The double nearest to an integer; what rounds to 2^1024 or beyond is an
    infinity. *)
Definition toDouble (z : Z) : JsNumber :=
  if Z.abs z <=? MAX_SAFE_INTEGER then Finite z
  else
    let v := roundMagnitude (Z.abs z) in
    if 2 ^ 1024 <=? v then (if z <? 0 then MinusInfinity else PlusInfinity)
    else Finite (Z.sgn z * v).

Definition num_neg (a : JsNumber) : JsNumber :=
  match a with
  | Finite x => Finite (- x)
  | PlusInfinity => MinusInfinity
  | MinusInfinity => PlusInfinity
  | NotANumber => NotANumber
  end.

(** [a + b]: the exact sum, rounded. *)
Definition num_add (a b : JsNumber) : JsNumber :=
  match a, b with
  | NotANumber, _ | _, NotANumber => NotANumber
  | PlusInfinity, MinusInfinity | MinusInfinity, PlusInfinity => NotANumber
  | PlusInfinity, _ | _, PlusInfinity => PlusInfinity
  | MinusInfinity, _ | _, MinusInfinity => MinusInfinity
  | Finite x, Finite y => toDouble (x + y)
  end.

(** [a - b] *)
Definition num_sub (a b : JsNumber) : JsNumber := num_add a (num_neg b).

(** [a == b] on numbers: NaN equals nothing, itself included. *)
Definition num_eq (a b : JsNumber) : bool :=
  match a, b with
  | Finite x, Finite y => x =? y
  | PlusInfinity, PlusInfinity => true
  | MinusInfinity, MinusInfinity => true
  | _, _ => false
  end.

(** ToBoolean on numbers: 0 and NaN are falsy. *)
Definition num_truthy (a : JsNumber) : bool :=
  match a with
  | Finite z => negb (z =? 0)
  | NotANumber => false
  | _ => true
  end.

(** [a || 0] *)
Definition num_or_zero (a : JsNumber) : JsNumber :=
  if num_truthy a then a else Finite 0.

(** Strings of ASCII characters: on these the bytes of a [string] are the
    characters of the JavaScript string. *)
Fixpoint asciiOnly (s : string) : bool :=
  match s with
  | String c s' => (Nat.ltb (nat_of_ascii c) 128 && asciiOnly s')%bool
  | EmptyString => true
  end.

(** [parseInt(v)] as a JavaScript number.  [None] marks a value this
    embedding does not render: a number beyond the safe integers, which
    [String] prints with rounded digits or an exponent, and a string with
    characters beyond ASCII, among which are white space that [parseInt]
    skips.  The integer read from a string is rounded to the nearest
    double, as the engines do; the standard lets them drop the digits past
    the twentieth, which changes no statement made here. *)
Definition parseIntNumber (v : JsValue) : option JsNumber :=
  match v with
  | JNum n => if Z.abs n <=? MAX_SAFE_INTEGER then Some (Finite n) else None
  | JStr s =>
      if asciiOnly s
      then Some (match parseIntString s with
                 | Some z => toDouble z
                 | None => NotANumber
                 end)
      else None
  | _ => Some NotANumber
  end.

Record RewardCounters : Type := mkCounters {
  totalRewardN : JsNumber;
  completedRewardN : JsNumber
}.

(** The reward part of [processTask]. *)
Definition countReward (c : RewardCounters) (task : Task)
  : option RewardCounters :=
  if truthy (reward task) then
    match parseIntNumber (reward task) with
    | Some x =>
        Some (mkCounters
                (num_add (totalRewardN c) (num_or_zero x))
                (if strict_eq (stage task) (JStr "done")
                 then num_add (completedRewardN c) (num_or_zero x)
                 else completedRewardN c))
    | None => None
    end
  else Some c.

Fixpoint countRewards (ts : list Task) (c : RewardCounters)
  : option RewardCounters :=
  match ts with
  | [] => Some c
  | task :: rest =>
      match countReward c task with
      | Some c' => countRewards rest c'
      | None => None
      end
  end.

(** [report.rewards] *)
Record NumberRewards : Type := mkNumberRewards {
  totalN : JsNumber;
  completedN : JsNumber;
  pendingN : JsNumber
}.

(** The rewards of the report for a task sequence: the counters start at 0,
    run through the tasks, and [pending] is their difference. *)
Definition rewardsOf (ts : list Task) : option NumberRewards :=
  match countRewards ts (mkCounters (Finite 0) (Finite 0)) with
  | Some c =>
      Some (mkNumberRewards (totalRewardN c) (completedRewardN c)
              (num_sub (totalRewardN c) (completedRewardN c)))
  | None => None
  end.

(** *** Exact rewards

    Rewards are exact when each is rendered by the embedding and their
    magnitudes add up to a safe integer: then no addition of the loop
    rounds. *)

Definition renderedReward (v : JsValue) : Prop :=
  match v with
  | JStr s => asciiOnly s = true
  | _ => True
  end.

Definition exactRewards (ts : list Task) : Prop :=
  Forall (fun t => renderedReward (reward t)) ts
  /\ sumZ (map (fun t => Z.abs (rewardValue (reward t))) ts) <= MAX_SAFE_INTEGER.

(** The reading of the report under which [pending == total - completed]
    holds whatever the tasks. *)
Definition pending_always_equals_difference : Prop :=
  forall (ts : list Task) (r : NumberRewards),
    rewardsOf ts = Some r ->
    num_eq (pendingN r) (num_sub (totalN r) (completedN r)) = true.

(** A string of [k] nines. *)
Fixpoint nines (k : nat) : string :=
  match k with
  | O => EmptyString
  | S k' => String "9" (nines k')
  end.

(** A task as it is but for its reward. *)
Definition withReward (v : JsValue) (t : Task) : Task :=
  mkTask (task_id t) (task_text t) (assignee t) (stage t) v (notes t).

(** The values [String] prints in full: every scalar but a number beyond
    the safe integers. *)
Definition printedInFull (v : JsValue) : Prop :=
  match v with
  | JNum n => Z.abs n <= MAX_SAFE_INTEGER
  | _ => True
  end.

(** *** Numeric strings

    A string is numeric when, white space around it aside, the whole of it
    is a number literal: a signed decimal numeral with an optional fraction
    and an optional exponent, or a hexadecimal literal.  These are the
    strings [Number(s)] converts to a number. *)

Definition isDecimalDigit (c : ascii) : bool :=
  match radixDigit 10 c with Some _ => true | None => false end.

Definition isHexDigit (c : ascii) : bool :=
  match radixDigit 16 c with Some _ => true | None => false end.

Fixpoint dropWhile (p : ascii -> bool) (s : string) : string :=
  match s with
  | String c s' => if p c then dropWhile p s' else s
  | EmptyString => s
  end.

Definition startsWith (p : ascii -> bool) (s : string) : bool :=
  match s with
  | String c _ => p c
  | EmptyString => false
  end.

Definition isBlank (s : string) : bool :=
  match skipWhiteSpace s with
  | EmptyString => true
  | _ => false
  end.

Definition isExponentMark (c : ascii) : bool :=
  (Ascii.eqb c "e" || Ascii.eqb c "E")%bool.

(** What follows the mantissa: nothing, or an exponent with at least one
    digit; then only white space. *)
Definition exponentAndRest (s : string) : bool :=
  match s with
  | String c s' =>
      if isExponentMark c then
        let s1 := snd (stripSign s') in
        (startsWith isDecimalDigit s1 && isBlank (dropWhile isDecimalDigit s1))%bool
      else isBlank s
  | EmptyString => true
  end.

Definition isDecimalLiteral (s : string) : bool :=
  let s1 := snd (stripSign s) in
  let s2 := dropWhile isDecimalDigit s1 in
  match s2 with
  | String "." s3 =>
      ((startsWith isDecimalDigit s1 || startsWith isDecimalDigit s3)
       && exponentAndRest (dropWhile isDecimalDigit s3))%bool
  | _ => (startsWith isDecimalDigit s1 && exponentAndRest s2)%bool
  end.

Definition isHexLiteral (s : string) : bool :=
  match stripRadixPrefix s with
  | (16, s') => (startsWith isHexDigit s' && isBlank (dropWhile isHexDigit s'))%bool
  | _ => false
  end.

Definition isNumericString (s : string) : bool :=
  let s' := skipWhiteSpace s in
  (isDecimalLiteral s' || isHexLiteral s')%bool.

(** A reward that is a number or a numeric string; anything else, an absent
    reward included, is not numeric. *)
Definition isNumeric (v : JsValue) : bool :=
  match v with
  | JNum _ => true
  | JStr s => isNumericString s
  | _ => false
  end.

(** The reading of the aggregator under which a reward that is absent or
    not numeric adds nothing to either sum. *)
Definition nonNumeric_adds_nothing : Prop :=
  forall (t : Task) (rep : SprintReport unit),
    isNumeric (reward t) = false ->
    aggregate tt (BareArray [t]) = Return rep ->
    total (rewards rep) = 0 /\ completed (rewards rep) = 0.

(** *** Sample data *)

Definition sampleTask (st rw : JsValue) : Task :=
  mkTask (JNum 1) (JStr "write the docs") (JStr "alice") st rw JUndefined.

Definition assignedTask (a : JsValue) : Task :=
  mkTask (JNum 1) (JStr "write the docs") a (JStr "todo") JUndefined JUndefined.

Definition tokenOnly : Config :=
  mkConfig JUndefined (JStr "s3cr3t") JUndefined JUndefined JUndefined JUndefined.

Definition userOnly : Config :=
  mkConfig JUndefined JUndefined JUndefined (JStr "u-1") JUndefined JUndefined.

(** A configuration that names a wallet API key and nothing else. *)
Definition adminKeyOnly : Config :=
  mkConfig JUndefined JUndefined (JStr "abc") JUndefined JUndefined JUndefined.

Definition emptyConfig : Config :=
  mkConfig JUndefined JUndefined JUndefined JUndefined JUndefined JUndefined.

(** A configuration with one field replaced. *)
Definition withAdminKey (k : JsValue) (cfg : Config) : Config :=
  mkConfig (lnbits_url cfg) (access_token cfg) k (user_id cfg) (usr cfg)
    (wallet_id cfg).

Definition withWallet (w : JsValue) (cfg : Config) : Config :=
  mkConfig (lnbits_url cfg) (access_token cfg) (admin_key cfg) (user_id cfg)
    (usr cfg) w.

(** A service that counts the requests it has seen and rejects the second. *)
Definition secondFails (r : Request) (seen : nat) : Response * nat :=
  (if Nat.eqb seen 1
   then Rejected (JStr "Scrum board not found") "Request failed with status code 404"
   else Resolved (DTask (sampleTask (JStr "todo") JUndefined)),
   S seen).

Definition sampleIssue (n : Z) : Issue :=
  mkIssue (JStr "Memory leak") (JStr "myorg/ai-core") (JNum n) JUndefined
    (JStr "https://github.com/myorg/ai-core/issues").

(** *** Well-formed skills *)

(** The client of a skill is absent or the one built from its configuration. *)
Definition clientOfConfig {Net : Type} (st : State Net) : Prop :=
  client st = None \/ client st = Some (newClient (config st)).

(** The configurations [initialize] lets through. *)
Definition guardPasses (cfg : Config) : Prop :=
  truthy (access_token cfg) = true \/ truthy (admin_key cfg) = true
  \/ truthy (user_id cfg) = true \/ truthy (usr cfg) = true.

(** A service that answers from a script, one response per request, and
    rejects whatever comes after the script has run out. *)
Definition scripted (r : Request) (script : list Response)
  : Response * list Response :=
  match script with
  | resp :: rest => (resp, rest)
  | [] => (Rejected JUndefined "Network Error", [])
  end.

Definition sampleBoard : ScrumBoard :=
  mkBoard (JStr "board-1") (JStr "AI Tasks") (JStr "Tasks for AI agents").

(** The request the import makes for an issue. *)
Definition issueRequest (c : Client) (scrumId defaultReward : JsValue)
    (issue : Issue) : Request :=
  requestOf c
    (CreateTask scrumId (issueDescription issue)
       (defaultParam (JStr "") (js_or (issue_assignee issue) (JStr "")))
       defaultReward
       (defaultParam (JStr "") (issueNotes issue))).

(** *** Loading the configuration

    [loadConfig] reads one file, whose path it builds from [HOME] (taken to
    be set).  The file system is what it sees of it: the content of that
    file, if the file exists and can be read.  [JSON.parse] either throws or
    yields a value; a value other than [null] is seen through the
    properties the skill and the client read from it. *)

Inductive ParseResult : Type :=
  | SyntaxError (msg : string)
  | ParsedObject (cfg : Config)
  | ParsedNull.

Section Loading.

Variable JSON_parse : string -> ParseResult.

(** [None] is a [null] configuration. *)
Definition loadConfig (file : option string) : option Config :=
  match file with
  | Some content =>
      match JSON_parse content with
      | ParsedObject cfg => Some cfg
      | ParsedNull => None
      | SyntaxError _ => Some emptyConfig
      end
  | None => Some emptyConfig
  end.

(** The constructor of the skill: [client = null], [config = loadConfig()].
    With a [null] configuration every method throws a [TypeError] on
    [this.config.access_token]; [State] has no place for that skill. *)
Definition newSkill {Net : Type} (file : option string) (n : Net)
  : option (State Net) :=
  match loadConfig file with
  | Some cfg => Some (mkState cfg None n [])
  | None => None
  end.

End Loading.

(** ** Scalars *)

Lemma strict_eq_true a b : strict_eq a b = true <-> a = b.
Proof. unfold strict_eq. apply bool_decide_eq_true. Qed.

Lemma strict_eq_false a b : strict_eq a b = false <-> a <> b.
Proof. unfold strict_eq. apply bool_decide_eq_false. Qed.

Lemma truthy_str s : truthy (JStr s) = true <-> s <> "".
Proof.
  simpl. rewrite negb_true_iff. split.
  - intros H ->. discriminate.
  - intros H. apply String.eqb_neq. exact H.
Qed.

Lemma truthy_nonEmptyString v : isString v -> (truthy v = true <-> nonEmptyString v).
Proof. destruct v; simpl; try contradiction. intros _. apply truthy_str. Qed.

(** On a falsy reward [parseInt(v) || 0] would add nothing anyway, so the
    guard [if (task.reward)] does not change the sum. *)
Lemma falsy_rewardValue v : truthy v = false -> rewardValue v = 0.
Proof.
  destruct v as [| |b|n|s]; simpl; try reflexivity.
  - rewrite negb_false_iff. intros H. apply Z.eqb_eq in H. exact H.
  - rewrite negb_false_iff. intros H. apply String.eqb_eq in H.
    subst s. reflexivity.
Qed.

Lemma truthy_parseIntOrZero v : truthy v = true -> parseIntOrZero v = rewardValue v.
Proof.
  destruct v as [| |b|n|s]; simpl; try discriminate; try reflexivity.
  destruct b; [reflexivity | discriminate].
Qed.

(** ** One step of the loop *)

Lemma processTask_totalTasks r t : totalTasks (processTask r t) = totalTasks r.
Proof.
  unfold processTask, routeTask, addReward, addAssignee.
  repeat (case_match; simpl); reflexivity.
Qed.

Lemma processTask_todo r t :
  todo (processTask r t) = todo r ++ filter (hasStage "todo") [t].
Proof.
  unfold processTask, routeTask, addReward, addAssignee, hasStage.
  rewrite filter_cons, filter_nil.
  repeat match goal with
  | |- context [strict_eq ?a ?b] =>
      let E := fresh in destruct (strict_eq a b) eqn:E;
      [apply strict_eq_true in E | apply strict_eq_false in E]
  | |- context [truthy ?a] => destruct (truthy a)
  | |- context [decide ?P] => destruct (decide P)
  end; simpl; rewrite ?app_nil_r; try reflexivity; congruence.
Qed.

Lemma processTask_doing r t :
  doing (processTask r t) = doing r ++ filter (hasStage "doing") [t].
Proof.
  unfold processTask, routeTask, addReward, addAssignee, hasStage.
  rewrite filter_cons, filter_nil.
  repeat match goal with
  | |- context [strict_eq ?a ?b] =>
      let E := fresh in destruct (strict_eq a b) eqn:E;
      [apply strict_eq_true in E | apply strict_eq_false in E]
  | |- context [truthy ?a] => destruct (truthy a)
  | |- context [decide ?P] => destruct (decide P)
  end; simpl; rewrite ?app_nil_r; try reflexivity; congruence.
Qed.

Lemma processTask_done r t :
  done (processTask r t) = done r ++ filter (hasStage "done") [t].
Proof.
  unfold processTask, routeTask, addReward, addAssignee, hasStage.
  rewrite filter_cons, filter_nil.
  repeat match goal with
  | |- context [strict_eq ?a ?b] =>
      let E := fresh in destruct (strict_eq a b) eqn:E;
      [apply strict_eq_true in E | apply strict_eq_false in E]
  | |- context [truthy ?a] => destruct (truthy a)
  | |- context [decide ?P] => destruct (decide P)
  end; simpl; rewrite ?app_nil_r; try reflexivity; congruence.
Qed.

Lemma processTask_assigneeSet r t :
  assigneeSet (processTask r t) = set_add (assignee t) (assigneeSet r).
Proof.
  unfold processTask, routeTask, addReward, addAssignee.
  repeat (case_match; simpl); reflexivity.
Qed.

Lemma processTask_totalReward r t :
  totalReward (processTask r t) = totalReward r + rewardValue (reward t).
Proof.
  unfold processTask, routeTask, addReward.
  destruct (truthy (reward t)) eqn:E.
  - rewrite (truthy_parseIntOrZero _ E).
    repeat (case_match; simpl); reflexivity.
  - rewrite (falsy_rewardValue _ E), Z.add_0_r.
    repeat (case_match; simpl); reflexivity.
Qed.

Lemma processTask_completedReward r t :
  completedReward (processTask r t)
  = completedReward r + sumZ (map (fun t => rewardValue (reward t))
                                  (filter (hasStage "done") [t])).
Proof.
  unfold processTask, routeTask, addReward, hasStage.
  rewrite filter_cons, filter_nil.
  destruct (truthy (reward t)) eqn:E.
  - rewrite (truthy_parseIntOrZero _ E).
    destruct (strict_eq (stage t) (JStr "done")) eqn:D;
      [apply strict_eq_true in D | apply strict_eq_false in D];
      destruct (decide (stage t = JStr "done")); try congruence;
      repeat (case_match; simpl); lia.
  - pose proof (falsy_rewardValue _ E) as Z0.
    destruct (decide (stage t = JStr "done"));
      repeat (case_match; simpl); lia.
Qed.

(** ** The whole loop *)

Lemma sumZ_app l1 l2 : sumZ (l1 ++ l2) = sumZ l1 + sumZ l2.
Proof. unfold sumZ. induction l1 as [|x l1 IH]; simpl; lia. Qed.

Lemma sumZ_filter_split {A} (f : A -> Z) (P : A -> Prop)
    `{!forall x, Decision (P x)} (l : list A) :
  sumZ (map f l)
  = sumZ (map f (filter P l)) + sumZ (map f (filter (fun x => ~ P x) l)).
Proof.
  induction l as [|x l IH]; [reflexivity|].
  rewrite !filter_cons.
  destruct (decide (P x)) as [Hx|Hx];
    destruct (decide (~ P x)); try tauto; simpl; simpl in IH; lia.
Qed.

Lemma sumZ_nonneg (l : list Z) : Forall (fun z => 0 <= z) l -> 0 <= sumZ l.
Proof. induction 1; simpl; lia. Qed.

Lemma sumZ_filter_nonneg {A} (f : A -> Z) (P : A -> Prop)
    `{!forall x, Decision (P x)} (l : list A) :
  Forall (fun x => 0 <= f x) l -> 0 <= sumZ (map f (filter P l)).
Proof.
  intros Hall. apply sumZ_nonneg, Forall_fmap, Forall_forall.
  intros x Hx. apply list_elem_of_filter in Hx. destruct Hx as [_ Hx].
  rewrite Forall_forall in Hall. apply Hall, Hx.
Qed.


Section Loop.

Variable ts : list Task.
Variable r0 : Report.

Let rN := fold_left processTask ts r0.

Lemma loop_totalTasks : totalTasks rN = totalTasks r0.
Proof.
  subst rN. revert r0. induction ts as [|t l IH]; intros r; simpl.
  - reflexivity.
  - rewrite IH. apply processTask_totalTasks.
Qed.

Lemma loop_todo : todo rN = todo r0 ++ filter (hasStage "todo") ts.
Proof.
  subst rN. revert r0. induction ts as [|t l IH]; intros r; simpl.
  - rewrite ?filter_nil, app_nil_r. reflexivity.
  - rewrite IH, processTask_todo, <- app_assoc, <- filter_app. reflexivity.
Qed.

Lemma loop_doing : doing rN = doing r0 ++ filter (hasStage "doing") ts.
Proof.
  subst rN. revert r0. induction ts as [|t l IH]; intros r; simpl.
  - rewrite ?filter_nil, app_nil_r. reflexivity.
  - rewrite IH, processTask_doing, <- app_assoc, <- filter_app. reflexivity.
Qed.

Lemma loop_done : done rN = done r0 ++ filter (hasStage "done") ts.
Proof.
  subst rN. revert r0. induction ts as [|t l IH]; intros r; simpl.
  - rewrite ?filter_nil, app_nil_r. reflexivity.
  - rewrite IH, processTask_done, <- app_assoc, <- filter_app. reflexivity.
Qed.

Lemma loop_totalReward :
  totalReward rN
  = totalReward r0 + sumZ (map (fun t => rewardValue (reward t)) ts).
Proof.
  subst rN. revert r0. induction ts as [|t l IH]; intros r; simpl.
  - lia.
  - rewrite IH, processTask_totalReward. lia.
Qed.

Lemma loop_completedReward :
  completedReward rN
  = completedReward r0
    + sumZ (map (fun t => rewardValue (reward t))
                (filter (hasStage "done") ts)).
Proof.
  subst rN. revert r0. induction ts as [|t l IH]; intros r; simpl.
  - rewrite ?filter_nil. simpl. lia.
  - rewrite IH, processTask_completedReward.
    change (t :: l) with ([t] ++ l).
    rewrite (filter_app _ [t] l), map_app, sumZ_app. lia.
Qed.

Lemma loop_assigneeSet :
  assigneeSet rN
  = fold_left (fun s a => set_add a s) (map assignee ts) (assigneeSet r0).
Proof.
  subst rN. revert r0. induction ts as [|t l IH]; intros r; simpl.
  - reflexivity.
  - rewrite IH, processTask_assigneeSet. reflexivity.
Qed.

End Loop.

(** ** The Set of assignees *)

Lemma filter_ext_in_list {A} (P Q : A -> Prop) `{!forall x, Decision (P x)}
    `{!forall x, Decision (Q x)} (l : list A) :
  (forall x, x ∈ l -> (P x <-> Q x)) -> filter P l = filter Q l.
Proof.
  induction l as [|x l IH]; intros Hext.
  - reflexivity.
  - rewrite !filter_cons.
    assert (IH' : filter P l = filter Q l).
    { apply IH. intros y Hy. apply Hext. right. exact Hy. }
    pose proof (Hext x ltac:(left)) as Hx.
    destruct (decide (P x)), (decide (Q x)); try tauto; rewrite IH'; reflexivity.
Qed.

Lemma filter_filter_list {A} (P Q : A -> Prop) `{!forall x, Decision (P x)}
    `{!forall x, Decision (Q x)} (l : list A) :
  filter P (filter Q l) = filter (fun x => P x /\ Q x) l.
Proof.
  induction l as [|x l IH].
  - reflexivity.
  - rewrite !filter_cons.
    destruct (decide (Q x)), (decide (P x /\ Q x)); try tauto;
      rewrite ?filter_cons; try destruct (decide (P x)); try tauto;
      rewrite IH; reflexivity.
Qed.

Lemma set_add_loop (l acc : list JsValue) :
  fold_left (fun s a => set_add a s) l acc
  = acc ++ filter (fun x => x ∉ acc) (firstSeen l).
Proof.
  revert acc. induction l as [|x l IH]; intros acc; simpl.
  - rewrite ?filter_nil, app_nil_r. reflexivity.
  - rewrite IH. unfold set_add. rewrite filter_cons.
    destruct (decide (x ∈ acc)) as [Hin|Hnin].
    + destruct (decide (x ∉ acc)); [contradiction|].
      f_equal. rewrite filter_filter_list.
      apply filter_ext_in_list. intros y _. split; [|tauto].
      intros Hy. split; [exact Hy|]. intros ->. contradiction.
    + destruct (decide (x ∉ acc)); [|contradiction].
      rewrite <- app_assoc. simpl. do 2 f_equal.
      rewrite filter_filter_list.
      apply filter_ext_in_list. intros y _.
      rewrite not_elem_of_app, list_elem_of_singleton. tauto.
Qed.

Lemma firstSeen_filter (P : JsValue -> Prop) `{!forall x, Decision (P x)} l :
  filter P (firstSeen l) = firstSeen (filter P l).
Proof.
  induction l as [|x l IH]; simpl.
  - reflexivity.
  - rewrite !filter_cons. destruct (decide (P x)) as [Hx|Hx]; simpl.
    + f_equal. rewrite <- IH, !filter_filter_list.
      apply filter_ext_in_list. intros; tauto.
    + rewrite <- IH, filter_filter_list.
      apply filter_ext_in_list. intros y _. split; [tauto|].
      intros Hy. split; [exact Hy|]. intros ->. contradiction.
Qed.

Lemma firstSeen_elem x l : x ∈ firstSeen l <-> x ∈ l.
Proof.
  induction l as [|y l IH]; simpl.
  - reflexivity.
  - rewrite !elem_of_cons, list_elem_of_filter, IH.
    destruct (decide (x = y)); tauto.
Qed.

Lemma firstSeen_NoDup l : NoDup (firstSeen l).
Proof.
  induction l as [|y l IH]; simpl.
  - constructor.
  - constructor.
    + rewrite list_elem_of_filter. tauto.
    + apply NoDup_filter. exact IH.
Qed.

(** ** What [aggregate] returns for a listing *)

(** [tasks.total || tasks.items?.length || 0] when [items] is an array. *)
Lemma initialTotal_envelope ts total :
  initialTotal (Envelope (ItemsArray ts) total)
  = if truthy total then total else JNum (Z.of_nat (length ts)).
Proof.
  unfold initialTotal, js_or. simpl.
  destruct (truthy total) eqn:E; rewrite ?E; [reflexivity|].
  destruct ts as [|t l]; reflexivity.
Qed.

Lemma finalize_loop_Summarises {B} (board : B) ts n :
  Summarises ts
    (finalize board (fold_left processTask ts (mkReport n [] [] [] [] 0 0))).
Proof.
  split; unfold finalize; simpl.
  - rewrite loop_todo. reflexivity.
  - rewrite loop_doing. reflexivity.
  - rewrite loop_done. reflexivity.
  - rewrite loop_assigneeSet, set_add_loop. simpl.
    rewrite (filter_ext_in_list (fun x => x ∉ []) (fun _ => True)).
    + rewrite (firstSeen_filter (fun _ => True)).
      rewrite firstSeen_filter. f_equal.
      rewrite filter_filter_list. apply filter_ext_in_list. intros; tauto.
    + intros x _. rewrite elem_of_nil. tauto.
  - rewrite loop_totalReward. simpl. lia.
  - rewrite loop_completedReward. simpl. lia.
  - reflexivity.
Qed.

Lemma Summarises_setTotalTasks {B} (board : B) ts n r :
  Summarises ts (finalize board r) ->
  Summarises ts (finalize board (setTotalTasks n r)).
Proof. intros [? ? ? ? ? ? ?]. split; assumption. Qed.

Lemma aggregate_carries {B} (board : B) tasks ts :
  carries tasks ts ->
  exists rep,
    aggregate board tasks = Return rep
    /\ scrumBoard rep = board
    /\ totalTasks (report rep) = listingCount tasks ts
    /\ Summarises ts rep.
Proof.
  intros [l total|l]; simpl.
  - eexists. split; [reflexivity|]. split; [reflexivity|]. split.
    + unfold finalize, initialReport. simpl.
      rewrite loop_totalTasks. simpl.
      apply (initialTotal_envelope l total).
    + apply finalize_loop_Summarises.
  - eexists. split; [reflexivity|]. split; [reflexivity|]. split.
    + reflexivity.
    + apply Summarises_setTotalTasks, finalize_loop_Summarises.
Qed.

(** Only a missing body makes the aggregation throw. *)
Lemma aggregate_Throw {B} (board : B) tasks e :
  aggregate board tasks = Throw e -> tasks = NoBody.
Proof. destruct tasks as [[l|] total|l|]; simpl; intros H; congruence. Qed.

Lemma bucket_lengths ts :
  length ts
  = (length (filter (hasStage "todo") ts) + length (filter (hasStage "doing") ts)
     + length (filter (hasStage "done") ts)
     + length (filter (fun t => ~ recognizedStage t) ts))%nat.
Proof.
  induction ts as [|t l IH]; [reflexivity|].
  rewrite !filter_cons. unfold recognizedStage, hasStage in *.
  destruct (decide (stage t = JStr "todo")) as [E1|E1];
    destruct (decide (stage t = JStr "doing")) as [E2|E2];
    destruct (decide (stage t = JStr "done")) as [E3|E3];
    try congruence;
    match goal with |- context [decide ?P] => destruct (decide P) end;
    try tauto; simpl; lia.
Qed.

(** ** Exact rewards in the arithmetic of doubles *)

Lemma toDouble_safe z : Z.abs z <= MAX_SAFE_INTEGER -> toDouble z = Finite z.
Proof.
  intros Hz. unfold toDouble.
  destruct (Z.abs z <=? MAX_SAFE_INTEGER) eqn:E; [reflexivity|].
  apply Z.leb_gt in E. lia.
Qed.

Lemma num_add_safe a b :
  Z.abs (a + b) <= MAX_SAFE_INTEGER ->
  num_add (Finite a) (Finite b) = Finite (a + b).
Proof. intros H. simpl. apply toDouble_safe, H. Qed.

Lemma num_sub_safe a b :
  Z.abs (a - b) <= MAX_SAFE_INTEGER ->
  num_sub (Finite a) (Finite b) = Finite (a - b).
Proof. intros H. unfold num_sub. simpl. apply toDouble_safe. exact H. Qed.

Lemma num_eq_refl x : x <> NotANumber -> num_eq x x = true.
Proof. destruct x; simpl; try congruence. intros _. apply Z.eqb_refl. Qed.

(** What a truthy reward adds, when it is rendered and safe. *)
Lemma parseIntNumber_exact v :
  renderedReward v ->
  Z.abs (rewardValue v) <= MAX_SAFE_INTEGER ->
  truthy v = true ->
  exists x, parseIntNumber v = Some x /\ num_or_zero x = Finite (rewardValue v).
Proof.
  intros Hr Hs Ht. destruct v as [| |b|n|s]; simpl in *; try discriminate Ht.
  - exists NotANumber. split; reflexivity.
  - exists (Finite n). split.
    + destruct (Z.abs n <=? MAX_SAFE_INTEGER) eqn:E; [reflexivity|].
      apply Z.leb_gt in E. lia.
    + unfold num_or_zero. simpl. rewrite Ht. reflexivity.
  - rewrite Hr. destruct (parseIntString s) as [z|]; simpl in *.
    + exists (toDouble z). split; [reflexivity|].
      rewrite (toDouble_safe z Hs). unfold num_or_zero. simpl.
      destruct (z =? 0) eqn:E; simpl; [|reflexivity].
      apply Z.eqb_eq in E. subst z. reflexivity.
    + exists NotANumber. split; reflexivity.
Qed.

Lemma countReward_exact c t a d :
  totalRewardN c = Finite a ->
  completedRewardN c = Finite d ->
  renderedReward (reward t) ->
  Z.abs a + Z.abs (rewardValue (reward t)) <= MAX_SAFE_INTEGER ->
  Z.abs d + Z.abs (rewardValue (reward t)) <= MAX_SAFE_INTEGER ->
  countReward c t
  = Some (mkCounters
            (Finite (a + rewardValue (reward t)))
            (Finite (d + sumZ (map (fun t => rewardValue (reward t))
                                   (filter (hasStage "done") [t]))))).
Proof.
  intros Ha Hd Hr Hsa Hsd. unfold countReward.
  rewrite filter_cons, filter_nil. unfold hasStage.
  destruct (truthy (reward t)) eqn:Ht.
  - destruct (parseIntNumber_exact (reward t) Hr ltac:(lia) Ht) as (x & Hx & Hv).
    rewrite Hx, Hv, Ha, Hd.
    rewrite num_add_safe by lia.
    destruct (strict_eq (stage t) (JStr "done")) eqn:E;
      [apply strict_eq_true in E | apply strict_eq_false in E];
      destruct (decide (stage t = JStr "done")); try contradiction; simpl.
    + rewrite toDouble_safe by lia. do 3 f_equal. lia.
    + do 3 f_equal. lia.
  - rewrite (falsy_rewardValue _ Ht).
    destruct c as [tc cc]. simpl in *. subst.
    destruct (decide (stage t = JStr "done")); simpl;
      rewrite ?(falsy_rewardValue _ Ht); do 3 f_equal; lia.
Qed.

Lemma sumZ_abs_nonneg {A} (f : A -> Z) (l : list A) :
  0 <= sumZ (map (fun x => Z.abs (f x)) l).
Proof. induction l as [|x l IH]; simpl; lia. Qed.

Lemma sumZ_filter_abs {A} (f : A -> Z) (P : A -> Prop)
    `{!forall x, Decision (P x)} (l : list A) :
  Z.abs (sumZ (map f (filter P l))) <= sumZ (map (fun x => Z.abs (f x)) l).
Proof.
  induction l as [|x l IH]; [simpl; lia|].
  rewrite filter_cons. destruct (decide (P x)); simpl in *; lia.
Qed.


Lemma countRewards_exact ts :
  forall a d,
  Forall (fun t => renderedReward (reward t)) ts ->
  Z.abs a + sumZ (map (fun t => Z.abs (rewardValue (reward t))) ts)
  <= MAX_SAFE_INTEGER ->
  Z.abs d + sumZ (map (fun t => Z.abs (rewardValue (reward t))) ts)
  <= MAX_SAFE_INTEGER ->
  countRewards ts (mkCounters (Finite a) (Finite d))
  = Some (mkCounters
            (Finite (a + sumZ (map (fun t => rewardValue (reward t)) ts)))
            (Finite (d + sumZ (map (fun t => rewardValue (reward t))
                                   (filter (hasStage "done") ts))))).
Proof.
  induction ts as [|t l IH]; intros a d Hall Ha Hd; simpl.
  - rewrite ?filter_nil. simpl. do 3 f_equal; lia.
  - inversion Hall as [|? ? Ht Hl]; subst.
    pose proof (sumZ_abs_nonneg (fun t => rewardValue (reward t)) l) as Hpos.
    simpl in Ha, Hd.
    rewrite (countReward_exact (mkCounters (Finite a) (Finite d)) t a d
               eq_refl eq_refl Ht) by lia.
    rewrite IH; [| exact Hl | |].
    + do 3 f_equal; [lia|].
      change (t :: l) with ([t] ++ l).
      rewrite (filter_app _ [t] l), map_app, sumZ_app. lia.
    + lia.
    + pose proof (sumZ_filter_abs (fun t => rewardValue (reward t))
                    (hasStage "done") [t]) as H1.
      simpl in H1. lia.
Qed.

(** On exact rewards the counters are the integer sums. *)
Lemma rewardsOf_exact ts :
  exactRewards ts ->
  rewardsOf ts
  = Some (mkNumberRewards
            (Finite (sumZ (map (fun t => rewardValue (reward t)) ts)))
            (Finite (sumZ (map (fun t => rewardValue (reward t))
                               (filter (hasStage "done") ts))))
            (Finite (sumZ (map (fun t => rewardValue (reward t))
                               (filter (fun t => ~ hasStage "done" t) ts))))).
Proof.
  intros [Hall Hsum]. unfold rewardsOf.
  rewrite (countRewards_exact ts 0 0 Hall) by (simpl; lia).
  rewrite !Z.add_0_l. cbn [totalRewardN completedRewardN].
  pose proof (sumZ_filter_abs (fun t => rewardValue (reward t))
                (fun t => ~ hasStage "done" t) ts) as Hnd.
  pose proof (sumZ_filter_split (fun t => rewardValue (reward t))
                (hasStage "done") ts) as Hsplit.
  cbv beta in Hnd, Hsplit.
  rewrite num_sub_safe by lia.
  do 3 f_equal. lia.
Qed.



(** * The report *)

(** C1, as amended.  For a listing of either shape whose rewards are exact
    (each absent, a safe integer or an ASCII string, their magnitudes adding
    up to at most 2^53 - 1, so that no addition rounds), [rewards.total] is
    the sum over all tasks of the integer the task's reward stands for, and
    [rewards.completed] is the same sum over the tasks whose stage is
    ['done'].  A number stands for itself; a string stands for the integer
    [parseInt] reads at its head; a reward that is absent, or that has no
    integer at its head, stands for 0.  The integer fields of the report
    are these numbers. *)
Theorem C1_reward_sums {B} (board : B) (tasks : TasksBody) (ts : list Task) :
  carries tasks ts ->
  exactRewards ts ->
  exists rep r,
    aggregate board tasks = Return rep
    /\ rewardsOf ts = Some r
    /\ totalN r = Finite (sumZ (map (fun t => rewardValue (reward t)) ts))
    /\ completedN r
       = Finite (sumZ (map (fun t => rewardValue (reward t))
                           (filter (hasStage "done") ts)))
    /\ totalN r = Finite (total (rewards rep))
    /\ completedN r = Finite (completed (rewards rep)).
Proof.
  intros Hc Hex.
  destruct (aggregate_carries board tasks ts Hc) as (rep & Hrep & _ & _ & Hs).
  exists rep. eexists. split; [exact Hrep|].
  split; [apply (rewardsOf_exact ts Hex)|]. cbn [totalN completedN].
  rewrite (sum_total _ _ Hs), (sum_completed _ _ Hs). repeat split.
Qed.

Lemma exactRewards_sample :
  exactRewards [sampleTask (JStr "done") (JNum 5000);
                sampleTask (JStr "todo") (JStr "12abc")].
Proof. split; [repeat constructor | vm_compute; discriminate]. Defined.

Lemma C1_reward_sums_witness :
  exists rep r,
    aggregate tt (BareArray [sampleTask (JStr "done") (JNum 5000);
                             sampleTask (JStr "todo") (JStr "12abc")]) = Return rep
    /\ rewardsOf [sampleTask (JStr "done") (JNum 5000);
                  sampleTask (JStr "todo") (JStr "12abc")] = Some r
    /\ totalN r = Finite 5012 /\ completedN r = Finite 5000.
Proof.
  destruct (C1_reward_sums tt
              (BareArray [sampleTask (JStr "done") (JNum 5000);
                          sampleTask (JStr "todo") (JStr "12abc")])
              _ (carries_array _) exactRewards_sample)
    as (rep & r & Hrep & Hr & Ht & Hc & _).
  exists rep, r. split; [exact Hrep|]. split; [exact Hr|].
  split; [exact Ht | exact Hc].
Defined.

(** C1, as stated, fails: the reward ["12abc"] is not numeric, yet the task
    adds 12 to both sums. *)
Lemma C1_counterexample : ~ nonNumeric_adds_nothing.
Proof.
  intros H.
  destruct (H (sampleTask (JStr "done") (JStr "12abc")) _ eq_refl eq_refl)
    as [Ht _].
  vm_compute in Ht. discriminate Ht.
Qed.

(** C2, as amended.  [rewards.pending] is always computed as
    [rewards.total - rewards.completed], and it compares equal to that
    difference whenever the difference is a number; it is one whenever
    total and completed are finite. *)
Theorem C2_pending_is_total_minus_completed (ts : list Task)
    (r : NumberRewards) :
  rewardsOf ts = Some r ->
  pendingN r = num_sub (totalN r) (completedN r)
  /\ (pendingN r <> NotANumber ->
      num_eq (pendingN r) (num_sub (totalN r) (completedN r)) = true)
  /\ (forall a c, totalN r = Finite a -> completedN r = Finite c ->
      num_eq (pendingN r) (num_sub (totalN r) (completedN r)) = true).
Proof.
  unfold rewardsOf.
  destruct (countRewards ts (mkCounters (Finite 0) (Finite 0))) as [c|];
    [|discriminate].
  intros [= <-]. cbn [totalN completedN pendingN].
  split; [reflexivity|]. split.
  - apply num_eq_refl.
  - intros a d -> ->. apply num_eq_refl.
    unfold num_sub. simpl. unfold toDouble.
    repeat case_match; discriminate.
Qed.

Lemma C2_pending_is_total_minus_completed_witness :
  num_eq (Finite 12) (num_sub (Finite 5012) (Finite 5000)) = true.
Proof.
  exact (proj2 (proj2 (C2_pending_is_total_minus_completed
                         [sampleTask (JStr "done") (JNum 5000);
                          sampleTask (JStr "todo") (JStr "12abc")]
                         (mkNumberRewards (Finite 5012) (Finite 5000) (Finite 12))
                         eq_refl))
           5012 5000 eq_refl eq_refl).
Defined.

(** C2, as stated, fails: a ['done'] task whose reward is a string of 400
    nines makes total and completed infinite, their difference is NaN, and
    NaN equals nothing. *)
Lemma C2_counterexample : ~ pending_always_equals_difference.
Proof.
  intros H.
  assert (E : rewardsOf [sampleTask (JStr "done") (JStr (nines 400))]
              = Some (mkNumberRewards PlusInfinity PlusInfinity NotANumber))
    by (vm_compute; reflexivity).
  specialize (H _ _ E). discriminate H.
Qed.

(** C3.  For a listing of either shape, each bucket holds exactly the tasks
    of its stage, in input order; a task of any other stage is in none of
    the three, and is part of the count all the same: a bare array is
    counted by its length, which is the sizes of the three buckets plus the
    number of tasks left out, and an envelope by its own [total] (by the
    length of [items] when it has none), whatever the stages. *)
Theorem C3_buckets_by_stage {B} (board : B) (tasks : TasksBody) (ts : list Task) :
  carries tasks ts ->
  exists rep,
    aggregate board tasks = Return rep
    /\ todo (report rep) = filter (hasStage "todo") ts
    /\ doing (report rep) = filter (hasStage "doing") ts
    /\ done (report rep) = filter (hasStage "done") ts
    /\ (forall t, t ∈ ts -> ~ recognizedStage t ->
          (t ∉ todo (report rep)) /\ (t ∉ doing (report rep)) /\ (t ∉ done (report rep)))
    /\ (forall t, t ∈ todo (report rep) ->
          (t ∉ doing (report rep)) /\ (t ∉ done (report rep)))
    /\ (forall t, t ∈ doing (report rep) ->
          (t ∉ todo (report rep)) /\ (t ∉ done (report rep)))
    /\ (forall t, t ∈ done (report rep) ->
          (t ∉ todo (report rep)) /\ (t ∉ doing (report rep)))
    /\ totalTasks (report rep) = listingCount tasks ts
    /\ length ts
       = (length (todo (report rep)) + length (doing (report rep))
          + length (done (report rep))
          + length (filter (fun t => ~ recognizedStage t) ts))%nat.
Proof.
  intros Hc.
  destruct (aggregate_carries board tasks ts Hc) as (rep & Hrep & _ & Hn & Hs).
  exists rep. destruct Hs as [Ht Hd Hf _ _ _ _].
  rewrite Ht, Hd, Hf.
  repeat split; try assumption; try reflexivity;
    try (rewrite list_elem_of_filter; unfold recognizedStage, hasStage in *;
         intros [E _]; first [tauto | congruence]);
    try (match goal with
         | H : _ ∈ filter _ _ |- _ =>
             apply list_elem_of_filter in H; destruct H as [E' _];
             unfold hasStage in *; rewrite list_elem_of_filter;
             intros [E _]; congruence
         end).
  apply bucket_lengths.
Qed.

Lemma C3_buckets_by_stage_witness :
  exists rep,
    aggregate tt (BareArray [sampleTask (JStr "review") JUndefined;
                             sampleTask (JStr "todo") JUndefined]) = Return rep
    /\ todo (report rep) = [sampleTask (JStr "todo") JUndefined]
    /\ doing (report rep) = []
    /\ done (report rep) = []
    /\ totalTasks (report rep) = JNum 2.
Proof.
  destruct (C3_buckets_by_stage tt
              (BareArray [sampleTask (JStr "review") JUndefined;
                          sampleTask (JStr "todo") JUndefined])
              _ (carries_array _))
    as (rep & Hrep & Ht & Hd & Hf & _ & _ & _ & _ & Hn & _).
  exists rep. split; [exact Hrep|].
  split; [exact Ht|]. split; [exact Hd|]. split; [exact Hf|]. exact Hn.
Defined.


(** The scenario of a bare array of length 4. *)
Example bare_array_of_four (t1 t2 t3 t4 : Task) :
  exists rep,
    aggregate tt (BareArray [t1; t2; t3; t4]) = Return rep
    /\ totalTasks (report rep) = JNum 4.
Proof. eexists. split; reflexivity. Qed.

(** C9.  For a listing of either shape, [assignees] holds the distinct
    truthy assignee values in the order of their first occurrence; its
    strings are the distinct non-empty assignee strings in that order; no
    value occurs twice, and neither the empty string nor an absent assignee
    occurs at all. *)
Theorem C9_assignees_first_seen {B} (board : B) (tasks : TasksBody) (ts : list Task) :
  carries tasks ts ->
  exists rep,
    aggregate board tasks = Return rep
    /\ assignees rep
       = firstSeen (filter (fun a => truthy a = true) (map assignee ts))
    /\ filter isString (assignees rep)
       = firstSeen (filter nonEmptyString (map assignee ts))
    /\ NoDup (assignees rep)
    /\ (JStr "" ∉ assignees rep)
    /\ (JUndefined ∉ assignees rep)
    /\ (JNull ∉ assignees rep).
Proof.
  intros Hc.
  destruct (aggregate_carries board tasks ts Hc) as (rep & Hrep & _ & _ & Hs).
  exists rep. rewrite (sum_assignees _ _ Hs).
  split; [exact Hrep|]. split; [reflexivity|]. split.
  { rewrite firstSeen_filter, filter_filter_list. f_equal.
    apply filter_ext_in_list. intros x _.
    destruct x as [| |b|n|s]; try (simpl; tauto).
    pose proof (truthy_str s) as Hstr. simpl in *. tauto. }
  split; [apply firstSeen_NoDup|].
  repeat split; rewrite firstSeen_elem, list_elem_of_filter;
    intros [E _]; discriminate E.
Qed.

Lemma C9_assignees_first_seen_witness :
  exists rep,
    aggregate tt (BareArray [assignedTask (JStr "bob"); assignedTask (JStr "");
                             assignedTask (JStr "amy"); assignedTask (JStr "bob")])
    = Return rep
    /\ assignees rep = [JStr "bob"; JStr "amy"].
Proof.
  destruct (C9_assignees_first_seen tt
              (BareArray [assignedTask (JStr "bob"); assignedTask (JStr "");
                          assignedTask (JStr "amy"); assignedTask (JStr "bob")])
              _ (carries_array _))
    as (rep & Hrep & Ha & _).
  exists rep. split; [exact Hrep | exact Ha].
Defined.

(** When every assignee is a string or absent, as the Task data model has
    it, [assignees] is exactly the distinct non-empty assignee strings. *)
Lemma assignees_of_string_assignees {B} (board : B) tasks ts :
  carries tasks ts ->
  Forall (fun t => isString (assignee t) \/ truthy (assignee t) = false) ts ->
  exists rep,
    aggregate board tasks = Return rep
    /\ assignees rep = firstSeen (filter nonEmptyString (map assignee ts)).
Proof.
  intros Hc Hall.
  destruct (aggregate_carries board tasks ts Hc) as (rep & Hrep & _ & _ & Hs).
  exists rep. split; [exact Hrep|].
  rewrite (sum_assignees _ _ Hs). f_equal.
  apply filter_ext_in_list. intros a Ha.
  apply list_elem_of_fmap in Ha. destruct Ha as (t & -> & Ht).
  rewrite Forall_forall in Hall. specialize (Hall t Ht).
  destruct Hall as [Hstr|Hf].
  - apply truthy_nonEmptyString. exact Hstr.
  - rewrite Hf. split; [discriminate|].
    destruct (assignee t); simpl in *; try contradiction.
    intros Hne. apply truthy_str in Hne. simpl in Hne. congruence.
Qed.

(** C10.  An envelope whose [total] is falsy and whose [items] is present
    is counted by the length of [items]; when [items] is not empty the
    count is not zero. *)
Theorem C10_falsy_total_counts_items {B} (board : B) (ts : list Task) (n : JsValue) :
  truthy n = false ->
  exists rep,
    aggregate board (Envelope (ItemsArray ts) n) = Return rep
    /\ totalTasks (report rep) = JNum (Z.of_nat (length ts))
    /\ (ts <> [] -> totalTasks (report rep) <> JNum 0).
Proof.
  intros Hn.
  destruct (aggregate_carries board _ ts (carries_envelope ts n))
    as (rep & Hrep & _ & Hc & _).
  exists rep. simpl in Hc. rewrite Hn in Hc. rewrite Hc.
  split; [exact Hrep|]. split; [reflexivity|].
  intros Hne E. destruct ts as [|t l]; [congruence|].
  simpl in E. inversion E.
Qed.

Lemma C10_falsy_total_counts_items_witness :
  exists rep,
    aggregate tt (Envelope (ItemsArray [sampleTask (JStr "todo") JUndefined;
                                        sampleTask (JStr "done") (JNum 21)])
                    (JNum 0)) = Return rep
    /\ totalTasks (report rep) = JNum 2.
Proof.
  destruct (C10_falsy_total_counts_items tt
              [sampleTask (JStr "todo") JUndefined;
               sampleTask (JStr "done") (JNum 21)] (JNum 0) eq_refl)
    as (rep & Hrep & Hn & _).
  exists rep. split; [exact Hrep | exact Hn].
Defined.

(** * The client *)

Lemma newClient_headers cfg :
  api_headers (newClient cfg) !! "Authorization"
  = if truthy (access_token cfg)
    then Some ("Bearer " +:+ toString (access_token cfg))
    else None.
Proof.
  unfold newClient. simpl.
  destruct (truthy (access_token cfg)).
  - apply lookup_insert_eq.
  - reflexivity.
Qed.

Lemma newClient_userId cfg :
  userId (newClient cfg) = js_or (user_id cfg) (usr cfg).
Proof. reflexivity. Qed.

Lemma buildParams_usr c (additionalParams : gmap string JsValue) :
  additionalParams !! "usr" = None ->
  buildParams c additionalParams !! "usr"
  = if truthy (userId c) then Some (userId c) else None.
Proof.
  intros Hfree. unfold buildParams.
  destruct (truthy (userId c)).
  - apply lookup_insert_eq.
  - exact Hfree.
Qed.

(** The parameters a method adds never name [usr] themselves. *)
Lemma requestOf_params c call :
  req_params (requestOf c call) !! "usr"
  = if truthy (userId c) then Some (userId c) else None.
Proof.
  destruct call; simpl; apply buildParams_usr; reflexivity.
Qed.

Lemma requestOf_headers c call :
  req_headers (requestOf c call) = api_headers c.
Proof. destruct call; reflexivity. Qed.

(** C5.  Whatever the configuration and whatever the method called, the
    request carries [Authorization: Bearer <token>] exactly when
    [access_token] is set, and the query parameter [usr] exactly when a user
    identifier is set, [user_id] taking precedence over [usr]; the one does
    not depend on the other. *)
Theorem C5_calling_context (cfg : Config) (call : Call) :
  req_headers (requestOf (newClient cfg) call) !! "Authorization"
  = (if truthy (access_token cfg)
     then Some ("Bearer " +:+ toString (access_token cfg))
     else None)
  /\ req_params (requestOf (newClient cfg) call) !! "usr"
     = (if truthy (user_id cfg) then Some (user_id cfg)
        else if truthy (usr cfg) then Some (usr cfg)
        else None).
Proof.
  split.
  - rewrite requestOf_headers. apply newClient_headers.
  - rewrite requestOf_params, newClient_userId. unfold js_or.
    destruct (truthy (user_id cfg)) eqn:E; rewrite ?E; reflexivity.
Qed.

Example token_only_context call :
  req_headers (requestOf (newClient tokenOnly) call) !! "Authorization"
  = Some "Bearer s3cr3t"
  /\ req_params (requestOf (newClient tokenOnly) call) !! "usr" = None.
Proof.
  rewrite requestOf_headers, requestOf_params, newClient_headers.
  split; reflexivity.
Qed.

Example user_only_context call :
  req_headers (requestOf (newClient userOnly) call) !! "Authorization" = None
  /\ req_params (requestOf (newClient userOnly) call) !! "usr" = Some (JStr "u-1").
Proof.
  rewrite requestOf_headers, requestOf_params, newClient_headers.
  split; reflexivity.
Qed.

Lemma createTask_payload_reward scrumId taskDescription assignee reward notes :
  createTask_payload scrumId taskDescription assignee reward notes !! "reward"
  = if decide (reward = JUndefined) then None else Some reward.
Proof.
  unfold createTask_payload.
  assert (Hnotes : forall (p : gmap string JsValue) v,
             (if truthy v then <[ "notes" := v ]> p else p) !! "reward"
             = p !! "reward").
  { intros p v. destruct (truthy v); [|reflexivity].
    apply lookup_insert_ne. discriminate. }
  rewrite Hnotes.
  destruct (strict_eq reward JUndefined) eqn:E;
    [apply strict_eq_true in E | apply strict_eq_false in E];
    destruct (decide (reward = JUndefined)); try contradiction.
  - reflexivity.
  - apply lookup_insert_eq.
Qed.

(** C7.  The payload of task creation has a [reward] field exactly when the
    reward passed is not [undefined], and the field then holds the value
    passed: an explicit [0] and an explicit [null] are sent as they are, an
    omitted reward leaves the payload without the field. *)
Theorem C7_reward_field (c : Client)
    (scrumId taskDescription assignee reward notes : JsValue) :
  exists payload,
    req_payload (requestOf c (CreateTask scrumId taskDescription assignee reward notes))
    = Some payload
    /\ payload !! "reward"
       = (if decide (reward = JUndefined) then None else Some reward)
    /\ createTask_payload scrumId taskDescription assignee (JNum 0) notes !! "reward"
       = Some (JNum 0)
    /\ createTask_payload scrumId taskDescription assignee JNull notes !! "reward"
       = Some JNull
    /\ createTask_payload scrumId taskDescription assignee JUndefined notes !! "reward"
       = None.
Proof.
  eexists. split; [reflexivity|].
  rewrite !createTask_payload_reward. repeat split.
Qed.

(** * The skill *)

Section SkillFacts.

Context {Net : Type}.
Variable send : Request -> Net -> Response * Net.

Lemma clientCall_run c call (st : State Net) :
  clientCall send c call st
  = (match fst (send (requestOf c call) (net st)) with
     | Resolved data => Return data
     | Rejected detail msg =>
         Throw (mkError "Error"
                  (failurePrefix call +:+ toString (js_or detail (JStr msg))))
     end,
     mkState (config st) (client st) (snd (send (requestOf c call) (net st)))
       (sent st ++ [requestOf c call])).
Proof.
  unfold clientCall, bind, axios.
  destruct (send (requestOf c call) (net st)) as [[data|detail msg] n];
    reflexivity.
Qed.

(** An upstream failure is never mistaken for the configuration error. *)
Lemma clientCall_not_config_error c call (st : State Net) e :
  fst (clientCall send c call st) = Throw e -> message e <> configErrorMessage.
Proof.
  rewrite clientCall_run. simpl.
  destruct (fst (send (requestOf c call) (net st))) as [data|detail msg];
    [discriminate|].
  intros [= <-]. destruct call; simpl; discriminate.
Qed.

(** The guard of [initialize], read off the configuration. *)
Lemma initialize_rejects (st : State Net) :
  truthy (access_token (config st)) = false ->
  truthy (admin_key (config st)) = false ->
  truthy (user_id (config st)) = false ->
  truthy (usr (config st)) = false ->
  initialize st = (Throw (mkError "Error" configErrorMessage), st).
Proof. intros H1 H2 H3 H4. unfold initialize. rewrite H1, H2, H3, H4. reflexivity. Qed.

Lemma initialize_accepts (st : State Net) :
  truthy (access_token (config st)) = true
  \/ truthy (admin_key (config st)) = true
  \/ truthy (user_id (config st)) = true
  \/ truthy (usr (config st)) = true ->
  initialize st
  = (Return tt,
     mkState (config st) (Some (newClient (config st))) (net st) (sent st)).
Proof.
  intros H. unfold initialize.
  destruct (truthy (access_token (config st))),
    (truthy (admin_key (config st))), (truthy (user_id (config st))),
    (truthy (usr (config st))); simpl; try reflexivity.
  destruct H as [H|[H|[H|H]]]; discriminate H.
Qed.

(** With nothing to authenticate with, the first method called throws the
    configuration error and leaves the state as it was: nothing is sent. *)
Lemma skillCall_fails_fast (st : State Net) call :
  client st = None ->
  truthy (access_token (config st)) = false ->
  truthy (admin_key (config st)) = false ->
  truthy (user_id (config st)) = false ->
  truthy (usr (config st)) = false ->
  skillCall send call st = (Throw (mkError "Error" configErrorMessage), st).
Proof.
  intros Hc H1 H2 H3 H4. unfold skillCall.
  rewrite Hc, (initialize_rejects st H1 H2 H3 H4). reflexivity.
Qed.

Lemma skillCall_initializes (st : State Net) call :
  client st = None ->
  truthy (access_token (config st)) = true
  \/ truthy (admin_key (config st)) = true
  \/ truthy (user_id (config st)) = true
  \/ truthy (usr (config st)) = true ->
  skillCall send call st
  = clientCall send (newClient (config st)) call
      (mkState (config st) (Some (newClient (config st))) (net st) (sent st)).
Proof.
  intros Hc H. unfold skillCall. rewrite Hc, (initialize_accepts st H). reflexivity.
Qed.

Lemma skillCall_with_client (st : State Net) c call :
  client st = Some c -> skillCall send call st = clientCall send c call st.
Proof. intros Hc. unfold skillCall. rewrite Hc. reflexivity. Qed.

(** With an access token or a user identifier, no method throws the
    configuration error. *)
Lemma skillCall_no_config_error (st : State Net) call e :
  client st = None ->
  truthy (access_token (config st)) = true
  \/ truthy (user_id (config st)) = true
  \/ truthy (usr (config st)) = true ->
  fst (skillCall send call st) = Throw e -> message e <> configErrorMessage.
Proof.
  intros Hc H. rewrite skillCall_initializes; [|exact Hc|tauto].
  apply clientCall_not_config_error.
Qed.

(** C6, at a configuration holding [admin_key] alone: neither an access
    token nor a user identifier is present, yet the first method called,
    whichever it is, throws no configuration error; it sends its request,
    which carries no [Authorization] header and no [usr] parameter. *)
Theorem C6_admin_key_only_reaches_network (n : Net) (call : Call) :
  sent (snd (skillCall send call (mkState adminKeyOnly None n [])))
  = [requestOf (newClient adminKeyOnly) call]
  /\ req_headers (requestOf (newClient adminKeyOnly) call) !! "Authorization" = None
  /\ req_params (requestOf (newClient adminKeyOnly) call) !! "usr" = None
  /\ (forall e,
        fst (skillCall send call (mkState adminKeyOnly None n [])) = Throw e ->
        message e <> configErrorMessage).
Proof.
  rewrite skillCall_initializes; [|reflexivity|right; left; reflexivity].
  split; [rewrite clientCall_run; reflexivity|].
  split; [rewrite requestOf_headers, newClient_headers; reflexivity|].
  split; [rewrite requestOf_params; reflexivity|].
  intros e. apply clientCall_not_config_error.
Qed.

(** ** The GitHub import *)

Lemma importIssue_created scrumId defaultReward issue (st st1 : State Net) task :
  createTask send scrumId (issueDescription issue)
    (js_or (issue_assignee issue) (JStr "")) defaultReward
    (issueNotes issue) st = (Return task, st1) ->
  importIssue send scrumId defaultReward issue st
  = (Return (Imported task issue), st1).
Proof. intros H. unfold importIssue, try_catch, bind. rewrite H. reflexivity. Qed.

Lemma importIssue_failed scrumId defaultReward issue (st st1 : State Net) e :
  createTask send scrumId (issueDescription issue)
    (js_or (issue_assignee issue) (JStr "")) defaultReward
    (issueNotes issue) st = (Throw e, st1) ->
  importIssue send scrumId defaultReward issue st
  = (Return (NotImported (message e) issue), st1).
Proof. intros H. unfold importIssue, try_catch, bind. rewrite H. reflexivity. Qed.

Lemma importLoop_attempts scrumId defaultReward issues :
  forall (acc : list ImportResult) (st : State Net),
  exists rs st',
    importLoop send scrumId defaultReward issues acc st = (Return (acc ++ rs), st')
    /\ Attempts send scrumId defaultReward st issues rs st'.
Proof.
  induction issues as [|issue rest IH]; intros acc st; simpl.
  - exists [], st. rewrite app_nil_r. split; [reflexivity | constructor].
  - unfold bind.
    destruct (createTask send scrumId (issueDescription issue)
                (js_or (issue_assignee issue) (JStr "")) defaultReward
                (issueNotes issue) st) as [[task|e] st1] eqn:Hrun.
    + rewrite (importIssue_created _ _ _ _ _ _ Hrun).
      destruct (IH (acc ++ [Imported task issue]) st1) as (rs & st' & Hloop & Hatt).
      exists (Imported task issue :: rs), st'.
      rewrite Hloop, <- app_assoc. split; [reflexivity|].
      eapply attempts_created; eassumption.
    + rewrite (importIssue_failed _ _ _ _ _ _ Hrun).
      destruct (IH (acc ++ [NotImported (message e) issue]) st1)
        as (rs & st' & Hloop & Hatt).
      exists (NotImported (message e) issue :: rs), st'.
      rewrite Hloop, <- app_assoc. split; [reflexivity|].
      eapply attempts_failed; eassumption.
Qed.

Lemma Attempts_issues scrumId defaultReward (st st' : State Net) issues rs :
  Attempts send scrumId defaultReward st issues rs st' ->
  map result_issue rs = issues.
Proof. induction 1; simpl; congruence. Qed.

(** C8.  The import never throws; it returns one entry per issue, in input
    order; the entry of an issue holds the task created for it, or the
    message of the error its creation threw; and creation is run for every
    issue, whatever became of the issues before it. *)
Theorem C8_import_is_failure_tolerant (githubIssues : list Issue)
    (scrumId defaultReward : JsValue) (st : State Net) :
  exists results st',
    addGithubIssuesToSprint send githubIssues scrumId defaultReward st
    = (Return results, st')
    /\ Attempts send scrumId defaultReward st githubIssues results st'
    /\ length results = length githubIssues
    /\ map result_issue results = githubIssues.
Proof.
  destruct (importLoop_attempts scrumId defaultReward githubIssues [] st)
    as (rs & st' & Hloop & Hatt).
  exists rs, st'. split; [exact Hloop|]. split; [exact Hatt|].
  pose proof (Attempts_issues _ _ _ _ _ _ Hatt) as Hmap.
  split; [|exact Hmap].
  rewrite <- Hmap, length_map. reflexivity.
Qed.

End SkillFacts.

(** The scenario of three issues of which the second is rejected upstream:
    three requests are sent and the entries read success, failure,
    success. *)
Example import_three_second_fails :
  let run :=
    addGithubIssuesToSprint secondFails
      [sampleIssue 131; sampleIssue 132; sampleIssue 133]
      (JStr "board-1") (JNum 1000) (mkState tokenOnly None 0%nat []) in
  fst run
  = Return
      [Imported (DTask (sampleTask (JStr "todo") JUndefined)) (sampleIssue 131);
       NotImported "Failed to create task: Scrum board not found" (sampleIssue 132);
       Imported (DTask (sampleTask (JStr "todo") JUndefined)) (sampleIssue 133)]
  /\ length (sent (snd run)) = 3%nat.
Proof. vm_compute. split; reflexivity. Qed.

(** * The methods end to end *)

Section EndToEnd.

Context {Net : Type}.
Variable send : Request -> Net -> Response * Net.

(** Task creation through the skill sends the client's request, reward
    untouched. *)
Lemma createTask_sends (st : State Net) c scrumId taskDescription assignee reward notes :
  client st = Some c ->
  exists r payload,
    sent (snd (createTask send scrumId taskDescription assignee reward notes st))
    = sent st ++ [r]
    /\ req_method r = POST
    /\ req_path r = "/tasks"
    /\ req_payload r = Some payload
    /\ payload !! "reward"
       = (if decide (reward = JUndefined) then None else Some reward).
Proof.
  intros Hc. unfold createTask.
  rewrite (skillCall_with_client send st c _ Hc), clientCall_run. simpl.
  eexists _, _. repeat split. apply createTask_payload_reward.
Qed.

(** With a client in place the import sends one request per issue, in
    order, whatever the service answers. *)
Lemma import_sends_one_request_per_issue scrumId defaultReward issues :
  forall (st st' : State Net) c rs,
  client st = Some c ->
  Attempts send scrumId defaultReward st issues rs st' ->
  sent st'
  = sent st
    ++ map (fun issue =>
              requestOf c
                (CreateTask scrumId (issueDescription issue)
                   (defaultParam (JStr "") (js_or (issue_assignee issue) (JStr "")))
                   defaultReward
                   (defaultParam (JStr "") (issueNotes issue))))
         issues
  /\ client st' = Some c.
Proof.
  induction issues as [|issue rest IH]; intros st st' c rs Hc Hatt;
    inversion Hatt as [?|? ? task st1 ? rs' ? Hrun Hrest|? ? e st1 ? rs' ? Hrun Hrest];
    subst.
  - simpl. rewrite app_nil_r. split; [reflexivity | exact Hc].
  - unfold createTask in Hrun.
    rewrite (skillCall_with_client send st c _ Hc), clientCall_run in Hrun.
    injection Hrun as _ Hst.
    assert (Hc1 : client st1 = Some c) by (rewrite <- Hst; exact Hc).
    destruct (IH st1 st' c rs' Hc1 Hrest) as [Hsent Hc'].
    rewrite Hsent, <- Hst. simpl. rewrite <- app_assoc.
    split; [reflexivity | exact Hc'].
  - unfold createTask in Hrun.
    rewrite (skillCall_with_client send st c _ Hc), clientCall_run in Hrun.
    injection Hrun as _ Hst.
    assert (Hc1 : client st1 = Some c) by (rewrite <- Hst; exact Hc).
    destruct (IH st1 st' c rs' Hc1 Hrest) as [Hsent Hc'].
    rewrite Hsent, <- Hst. simpl. rewrite <- app_assoc.
    split; [reflexivity | exact Hc'].
Qed.

(** The report method is the aggregation of what its two fetches return. *)
Lemma generateSprintReport_aggregates (st : State Net) c scrumId board tasks n1 n2 :
  client st = Some c ->
  send (requestOf c (GetScrumBoard scrumId)) (net st) = (Resolved board, n1) ->
  send (requestOf c (GetTasksForScrum scrumId JUndefined JUndefined)) n1
  = (Resolved tasks, n2) ->
  fst (generateSprintReport send scrumId st) = aggregate board (asTasksBody tasks).
Proof.
  intros Hc H1 H2.
  unfold generateSprintReport, bind, getScrumBoard, getTasksForScrum, liftOutcome.
  rewrite (skillCall_with_client send st c _ Hc), clientCall_run, H1.
  cbn [fst snd].
  erewrite skillCall_with_client by (simpl; exact Hc).
  rewrite clientCall_run. cbn [fst snd net]. rewrite H2. reflexivity.
Qed.

End EndToEnd.

(** A configuration with no credential at all: the first method called
    throws the configuration error and nothing is sent. *)
Example empty_config_fails_fast (call : Call) :
  skillCall secondFails call (mkState emptyConfig None 0%nat [])
  = (Throw (mkError "Error" configErrorMessage), mkState emptyConfig None 0%nat []).
Proof. apply skillCall_fails_fast; reflexivity. Qed.

(** The scenario of section 8 of the specification: three tasks, one
    without reward, one done with 5000 sats, one in progress with 0. *)
Example report_of_three_tasks :
  exists rep,
    aggregate tt
      (BareArray [sampleTask (JStr "todo") JUndefined;
                  sampleTask (JStr "done") (JNum 5000);
                  sampleTask (JStr "doing") (JNum 0)]) = Return rep
    /\ totalTasks (report rep) = JNum 3
    /\ todo (report rep) = [sampleTask (JStr "todo") JUndefined]
    /\ doing (report rep) = [sampleTask (JStr "doing") (JNum 0)]
    /\ done (report rep) = [sampleTask (JStr "done") (JNum 5000)]
    /\ rewards rep = mkRewards 5000 5000 0.
Proof. eexists. repeat split. Qed.

(** * Further properties of the aggregation *)

(** On exact rewards, what is pending is what the tasks that are not
    ['done'] are worth: the tasks still to do, those in progress, and those
    whose stage is none of the three. *)
Theorem pending_is_sum_of_not_done (ts : list Task) :
  exactRewards ts ->
  exists r,
    rewardsOf ts = Some r
    /\ pendingN r
       = Finite (sumZ (map (fun t => rewardValue (reward t))
                           (filter (fun t => ~ hasStage "done" t) ts))).
Proof.
  intros Hex. eexists. split; [apply (rewardsOf_exact ts Hex)|]. reflexivity.
Qed.

Lemma exactRewards_review :
  exactRewards [sampleTask (JStr "review") (JNum 7);
                sampleTask (JStr "done") (JNum 5)].
Proof. split; [repeat constructor | vm_compute; discriminate]. Defined.

Lemma pending_is_sum_of_not_done_witness :
  exists r,
    rewardsOf [sampleTask (JStr "review") (JNum 7);
               sampleTask (JStr "done") (JNum 5)] = Some r
    /\ pendingN r = Finite 7.
Proof.
  exact (pending_is_sum_of_not_done
           [sampleTask (JStr "review") (JNum 7);
            sampleTask (JStr "done") (JNum 5)] exactRewards_review).
Defined.

(** On exact rewards none of which is negative, the three reward figures
    are finite and ordered: [0 <= completed <= total] and
    [0 <= pending <= total]. *)
Theorem rewards_bounds (ts : list Task) :
  exactRewards ts ->
  Forall (fun t => 0 <= rewardValue (reward t)) ts ->
  exists r T C P,
    rewardsOf ts = Some r
    /\ totalN r = Finite T /\ completedN r = Finite C /\ pendingN r = Finite P
    /\ 0 <= C <= T /\ 0 <= P <= T.
Proof.
  intros Hex Hpos. eexists _, _, _, _.
  split; [apply (rewardsOf_exact ts Hex)|].
  split; [reflexivity|]. split; [reflexivity|]. split; [reflexivity|].
  pose proof (sumZ_filter_split (fun t => rewardValue (reward t))
                (hasStage "done") ts) as Hsplit.
  pose proof (sumZ_filter_nonneg (fun t => rewardValue (reward t))
                (hasStage "done") ts Hpos) as H1.
  pose proof (sumZ_filter_nonneg (fun t => rewardValue (reward t))
                (fun t => ~ hasStage "done" t) ts Hpos) as H2.
  cbv beta in Hsplit, H1, H2. lia.
Qed.

Lemma rewards_bounds_witness :
  exists r T C P,
    rewardsOf [sampleTask (JStr "review") (JNum 7);
               sampleTask (JStr "done") (JNum 5)] = Some r
    /\ totalN r = Finite T /\ completedN r = Finite C /\ pendingN r = Finite P
    /\ 0 <= C <= T /\ 0 <= P <= T.
Proof.
  apply (rewards_bounds _ exactRewards_review).
  repeat constructor; simpl; lia.
Defined.








(** ** Numbers and their decimal strings *)

Lemma radixDigit_pretty_N_char (d : N) :
  (d < 10)%N -> radixDigit 10 (pretty_N_char d) = Some (Z.of_N d).
Proof.
  intros Hd.
  assert (d = 0 \/ d = 1 \/ d = 2 \/ d = 3 \/ d = 4 \/ d = 5 \/ d = 6
          \/ d = 7 \/ d = 8 \/ d = 9)%N as Hcases by lia.
  repeat (destruct Hcases as [->|Hcases]; [reflexivity|]).
  subst d. reflexivity.
Qed.

Lemma readDigits_pretty_N_go (x : N) :
  forall s, (0 < x)%N ->
  readDigits 10 (pretty_N_go x s) None = readDigits 10 s (Some (Z.of_N x)).
Proof.
  induction (N.lt_wf_0 x) as [x _ IH]; intros s Hx.
  rewrite pretty_N_go_step by exact Hx.
  assert (Hmod : (x `mod` 10 < 10)%N) by (apply N.mod_lt; lia).
  pose proof (N.div_mod x 10 ltac:(lia)) as Hdm.
  destruct (decide (x `div` 10 = 0)%N) as [Hz|Hnz].
  - rewrite Hz, pretty_N_go_0. simpl.
    rewrite (radixDigit_pretty_N_char _ Hmod). simpl.
    f_equal. f_equal. lia.
  - rewrite IH; [|apply N.div_lt; lia|lia]. simpl.
    rewrite (radixDigit_pretty_N_char _ Hmod). simpl.
    f_equal. f_equal. lia.
Qed.

Lemma isDecimalDigit_pretty_N_char (d : N) :
  (d < 10)%N -> isDecimalDigit (pretty_N_char d) = true.
Proof.
  intros Hd. unfold isDecimalDigit.
  rewrite (radixDigit_pretty_N_char _ Hd). reflexivity.
Qed.

(** A printed positive number starts with a digit, and so does what
    follows it, if anything does. *)
Lemma pretty_N_go_head (x : N) :
  forall s, (0 < x)%N ->
  exists c rest,
    pretty_N_go x s = String c rest
    /\ isDecimalDigit c = true
    /\ (rest = s \/ startsWith isDecimalDigit rest = true).
Proof.
  induction (N.lt_wf_0 x) as [x _ IH]; intros s Hx.
  rewrite pretty_N_go_step by exact Hx.
  assert (Hmod : (x `mod` 10 < 10)%N) by (apply N.mod_lt; lia).
  destruct (decide (x `div` 10 = 0)%N) as [Hz|Hnz].
  - rewrite Hz, pretty_N_go_0. eexists _, _. split; [reflexivity|].
    split; [apply isDecimalDigit_pretty_N_char, Hmod | left; reflexivity].
  - assert (Hlt : (x `div` 10 < x)%N) by (apply N.div_lt; lia).
    assert (Hpos : (0 < x `div` 10)%N) by (apply N.neq_0_lt_0; exact Hnz).
    destruct (IH (x `div` 10)%N Hlt
                (String (pretty_N_char (x `mod` 10)) s) Hpos)
      as (c & rest & Heq & Hc & Hrest).
    exists c, rest. split; [exact Heq|]. split; [exact Hc|]. right.
    destruct Hrest as [->|Hrest]; [|exact Hrest].
    simpl. apply isDecimalDigit_pretty_N_char, Hmod.
Qed.

Lemma isDecimalDigit_cases (c : ascii) :
  isDecimalDigit c = true ->
  c ∈ ["0"; "1"; "2"; "3"; "4"; "5"; "6"; "7"; "8"; "9"]%char.
Proof.
  destruct c as [[] [] [] [] [] [] [] []]; vm_compute; intros H;
    try discriminate H; set_solver.
Qed.

(** Nothing is stripped from a string that starts with a digit and goes on
    with a digit or not at all. *)
Lemma digit_headed_unstripped (c : ascii) (rest : string) :
  isDecimalDigit c = true ->
  rest = "" \/ startsWith isDecimalDigit rest = true ->
  skipWhiteSpace (String c rest) = String c rest
  /\ stripSign (String c rest) = (1, String c rest)
  /\ stripRadixPrefix (String c rest) = (10, String c rest).
Proof.
  intros Hc Hrest. apply isDecimalDigit_cases in Hc.
  assert (Hhead : skipWhiteSpace (String c rest) = String c rest
                  /\ stripSign (String c rest) = (1, String c rest)).
  { set_unfold in Hc.
    repeat (destruct Hc as [->|Hc]; [split; reflexivity|]).
    contradiction. }
  destruct Hhead as [Hw Hs]. split; [exact Hw|]. split; [exact Hs|].
  destruct Hrest as [->|Hrest].
  - set_unfold in Hc.
    repeat (destruct Hc as [->|Hc]; [reflexivity|]). contradiction.
  - destruct rest as [|c' rest']; [discriminate Hrest|].
    simpl in Hrest. apply isDecimalDigit_cases in Hrest.
    set_unfold in Hc. set_unfold in Hrest.
    repeat (destruct Hc as [->|Hc]; [
      repeat (destruct Hrest as [->|Hrest]; [reflexivity|]); contradiction |]).
    contradiction.
Qed.

Lemma parseIntString_pretty_positive (p : positive) :
  forall sign s,
    stripSign (skipWhiteSpace s) = (sign, pretty_N_go (Npos p) "") ->
    parseIntString s = Some (sign * Zpos p).
Proof.
  intros sign s Hs. unfold parseIntString. rewrite Hs.
  destruct (pretty_N_go_head (Npos p) "" ltac:(lia)) as (c & rest & Heq & Hc & Hrest).
  destruct (digit_headed_unstripped c rest Hc Hrest) as (_ & _ & Hr).
  rewrite Heq, Hr, <- Heq.
  rewrite readDigits_pretty_N_go by lia. reflexivity.
Qed.

(** The decimal numeral of an integer reads back as that integer. *)
Lemma parseIntString_pretty (n : Z) : parseIntString (pretty n) = Some n.
Proof.
  destruct n as [|p|p]; [reflexivity| |].
  - rewrite (parseIntString_pretty_positive p 1); [reflexivity|].
    change (pretty (Z.pos p)) with (pretty_N_go (Npos p) "").
    destruct (pretty_N_go_head (Npos p) "" ltac:(lia))
      as (c & rest & Heq & Hc & Hrest).
    destruct (digit_headed_unstripped c rest Hc Hrest) as (Hw & Hs & _).
    rewrite Heq, Hw, Hs. reflexivity.
  - rewrite (parseIntString_pretty_positive p (-1)); [reflexivity|].
    reflexivity.
Qed.

Lemma asciiOnly_pretty_N_go (x : N) :
  forall s, asciiOnly s = true -> asciiOnly (pretty_N_go x s) = true.
Proof.
  induction (N.lt_wf_0 x) as [x _ IH]; intros s Hs.
  destruct (decide (x = 0)%N) as [->|Hx]; [exact Hs|].
  assert (Hpos : (0 < x)%N) by (apply N.neq_0_lt_0; exact Hx).
  rewrite pretty_N_go_step by exact Hpos.
  apply IH; [apply N.div_lt; lia|].
  simpl. rewrite Hs, andb_true_r.
  unfold pretty_N_char. repeat case_match; reflexivity.
Qed.

Lemma asciiOnly_pretty (n : Z) : asciiOnly (pretty n) = true.
Proof.
  destruct n as [|p|p]; [reflexivity| |].
  - apply (asciiOnly_pretty_N_go (Npos p) ""). reflexivity.
  - change (pretty (Z.neg p)) with (String "-" (pretty_N_go (Npos p) "")).
    simpl. apply (asciiOnly_pretty_N_go (Npos p) ""). reflexivity.
Qed.

Lemma sumZ_filter_middle (P : Task -> Prop) `{!forall t, Decision (P t)}
    (l1 l2 : list Task) (t t' : Task) :
  (P t <-> P t') ->
  rewardValue (reward t) = rewardValue (reward t') ->
  sumZ (map (fun t => rewardValue (reward t)) (filter P (l1 ++ t :: l2)))
  = sumZ (map (fun t => rewardValue (reward t)) (filter P (l1 ++ t' :: l2))).
Proof.
  intros HP Hv. rewrite !filter_app, !filter_cons.
  destruct (decide (P t)), (decide (P t')); try tauto;
    rewrite !map_app, !sumZ_app; simpl; lia.
Qed.

(** A reward that arrives as the decimal string of a safe integer counts
    for what the number itself would: among exact rewards, replacing the
    number by its string leaves the rewards of the report as they are. *)
Theorem reward_as_decimal_string (ts1 ts2 : list Task) (t : Task) (n : Z) :
  exactRewards (ts1 ++ withReward (JNum n) t :: ts2) ->
  rewardsOf (ts1 ++ withReward (JStr (toString (JNum n))) t :: ts2)
  = rewardsOf (ts1 ++ withReward (JNum n) t :: ts2).
Proof.
  intros Hex. change (toString (JNum n)) with (pretty n).
  assert (Hv : rewardValue (reward (withReward (JStr (pretty n)) t))
               = rewardValue (reward (withReward (JNum n) t))).
  { simpl. rewrite parseIntString_pretty. reflexivity. }
  assert (Hex' : exactRewards (ts1 ++ withReward (JStr (pretty n)) t :: ts2)).
  { destruct Hex as [Hall Hsum]. split.
    - apply Forall_app in Hall. destruct Hall as [H1 H2].
      apply Forall_app. split; [exact H1|].
      inversion H2; subst. constructor; [|assumption].
      simpl. apply asciiOnly_pretty.
    - rewrite map_app, sumZ_app in Hsum |- *. simpl in Hsum |- *.
      rewrite parseIntString_pretty. simpl. exact Hsum. }
  rewrite (rewardsOf_exact _ Hex), (rewardsOf_exact _ Hex').
  rewrite (sumZ_filter_middle (hasStage "done") ts1 ts2
             (withReward (JStr (pretty n)) t) (withReward (JNum n) t)
             ltac:(reflexivity) Hv).
  rewrite (sumZ_filter_middle (fun t => ~ hasStage "done" t) ts1 ts2
             (withReward (JStr (pretty n)) t) (withReward (JNum n) t)
             ltac:(reflexivity) Hv).
  rewrite !map_app, !sumZ_app. simpl. rewrite parseIntString_pretty.
  reflexivity.
Qed.

Lemma exactRewards_5000 :
  exactRewards ([] ++ withReward (JNum 5000) (sampleTask (JStr "done") JNull) :: []).
Proof. split; [repeat constructor | vm_compute; discriminate]. Defined.

Lemma reward_as_decimal_string_witness :
  rewardsOf [withReward (JStr "5000") (sampleTask (JStr "done") JNull)]
  = rewardsOf [withReward (JNum 5000) (sampleTask (JStr "done") JNull)].
Proof.
  exact (reward_as_decimal_string [] [] (sampleTask (JStr "done") JNull) 5000
           exactRewards_5000).
Defined.

(** * Further properties of the client *)

(** [buildParams] hands every parameter of the caller on unchanged; only
    [usr] is its own: with a user identifier it replaces whatever [usr] the
    caller gave, without one the caller's [usr], if any, stays. *)
Theorem buildParams_keeps_caller_params (c : Client)
    (additionalParams : gmap string JsValue) (k : string) :
  (k <> "usr" -> buildParams c additionalParams !! k = additionalParams !! k)
  /\ buildParams c additionalParams !! "usr"
     = (if truthy (userId c) then Some (userId c)
        else additionalParams !! "usr").
Proof.
  unfold buildParams. destruct (truthy (userId c)); split.
  - intros Hk. apply lookup_insert_ne. congruence.
  - apply lookup_insert_eq.
  - reflexivity.
  - reflexivity.
Qed.

Lemma truthy_defaultParam_empty v :
  truthy (defaultParam (JStr "") v) = truthy v.
Proof. destruct v; reflexivity. Qed.

Lemma createTask_payload_lookups
    (scrumId taskDescription assignee reward notes : JsValue) :
  let payload :=
    createTask_payload scrumId taskDescription assignee reward notes in
  dom payload
  = {[ "task"; "scrum_id"; "assignee"; "stage" ]}
    ∪ (if decide (reward = JUndefined) then ∅ else {[ "reward" ]})
    ∪ (if truthy notes then {[ "notes" ]} else ∅)
  /\ payload !! "task" = Some taskDescription
  /\ payload !! "scrum_id" = Some scrumId
  /\ payload !! "stage" = Some (JStr "todo")
  /\ payload !! "assignee"
     = Some (if truthy assignee then assignee else JStr "")
  /\ payload !! "notes" = (if truthy notes then Some notes else None).
Proof.
  unfold createTask_payload. cbv zeta.
  rewrite truthy_defaultParam_empty.
  assert (Ha : js_or (defaultParam (JStr "") assignee) (JStr "")
               = if truthy assignee then assignee else JStr "").
  { unfold js_or. rewrite truthy_defaultParam_empty.
    destruct assignee; reflexivity. }
  rewrite Ha. clear Ha.
  assert (Hn : truthy notes = true -> defaultParam (JStr "") notes = notes).
  { destruct notes; simpl; intros; congruence. }
  destruct (strict_eq reward JUndefined) eqn:E;
    [apply strict_eq_true in E | apply strict_eq_false in E];
    destruct (decide (reward = JUndefined)); try contradiction;
    destruct (truthy notes) eqn:N; rewrite ?(Hn eq_refl);
    (split; [rewrite ?dom_insert_L, ?dom_empty_L; set_solver|]);
    repeat split; reflexivity.
Qed.

(** The payload of task creation holds [task], [scrum_id], [assignee] and
    [stage] always, [reward] when one was passed, [notes] when they are not
    empty, and nothing else.  The stage is always ['todo']; the assignee is
    the one passed, or the empty string when that one is falsy. *)
Theorem createTask_payload_fields
    (scrumId taskDescription assignee reward notes : JsValue) :
  let payload :=
    createTask_payload scrumId taskDescription assignee reward notes in
  dom payload
  = {[ "task"; "scrum_id"; "assignee"; "stage" ]}
    ∪ (if decide (reward = JUndefined) then ∅ else {[ "reward" ]})
    ∪ (if truthy notes then {[ "notes" ]} else ∅)
  /\ payload !! "task" = Some taskDescription
  /\ payload !! "scrum_id" = Some scrumId
  /\ payload !! "stage" = Some (JStr "todo")
  /\ payload !! "assignee"
     = Some (if truthy assignee then assignee else JStr "")
  /\ payload !! "notes" = (if truthy notes then Some notes else None).
Proof. apply createTask_payload_lookups. Qed.


(** The visibility flags of a new board are never sent as [null] or
    [undefined]: a flag the caller left out is sent as [false], any other
    value as it is. *)
Theorem createScrumBoard_flags_defined (c : Client) (name description : JsValue)
    (options : BoardOptions) (k : string) (flag : BoardOptions -> JsValue) :
  (k, flag) ∈ [("public_assigning", publicAssigning);
               ("public_tasks", publicTasks);
               ("public_delete_tasks", publicDeleteTasks)] ->
  exists v,
    createScrumBoard_payload c name description options !! k = Some v
    /\ v <> JUndefined /\ v <> JNull
    /\ (flag options <> JUndefined -> flag options <> JNull -> v = flag options)
    /\ (flag options = JUndefined \/ flag options = JNull -> v = JBool false).
Proof.
  intros Hk. rewrite !elem_of_cons, elem_of_nil in Hk.
  destruct Hk as [Hk|[Hk|[Hk|[]]]]; injection Hk as -> ->;
    (eexists; split; [reflexivity|]);
    match goal with |- context [js_nullish ?a _] => destruct a end;
    simpl; repeat split; try congruence; intros [?|?]; congruence.
Qed.

Lemma createScrumBoard_flags_defined_witness :
  exists v,
    createScrumBoard_payload (newClient tokenOnly) (JStr "AI Tasks") (JStr "")
      (mkOptions JUndefined (JBool true) JUndefined) !! "public_assigning"
    = Some v
    /\ v = JBool false.
Proof.
  destruct (createScrumBoard_flags_defined (newClient tokenOnly)
              (JStr "AI Tasks") (JStr "")
              (mkOptions JUndefined (JBool true) JUndefined)
              "public_assigning" publicAssigning
              ltac:(left))
    as (v & Hv & _ & _ & _ & Hd).
  exists v. split; [exact Hv|]. apply Hd. left. reflexivity.
Defined.

(** Only creating and updating send a body: reading, listing and deleting
    never do, and creating and updating always do. *)
Theorem body_only_when_writing (c : Client) (call : Call) :
  (req_payload (requestOf c call) = None
   <-> req_method (requestOf c call) = GET
       \/ req_method (requestOf c call) = DELETE)
  /\ (is_Some (req_payload (requestOf c call))
      <-> req_method (requestOf c call) = POST
          \/ req_method (requestOf c call) = PUT).
Proof.
  destruct call; simpl; split; split;
    try (intros [?|?]; discriminate);
    try (intros [? ?]; discriminate);
    try discriminate; eauto.
Qed.

(** [admin_key] reaches no request: whatever it is set to, every method
    sends the same request. *)
Theorem admin_key_is_never_sent (cfg : Config) (k : JsValue) (call : Call) :
  requestOf (newClient (withAdminKey k cfg)) call
  = requestOf (newClient cfg) call.
Proof. destruct call; reflexivity. Qed.

(** [wallet_id] plays no part in authentication: it changes neither the
    headers nor the query parameters of any request, and changes the body
    of none but board creation. *)
Theorem wallet_only_in_board_creation (cfg : Config) (w : JsValue) (call : Call) :
  req_headers (requestOf (newClient (withWallet w cfg)) call)
  = req_headers (requestOf (newClient cfg) call)
  /\ req_params (requestOf (newClient (withWallet w cfg)) call)
     = req_params (requestOf (newClient cfg) call)
  /\ ((forall name description options,
         call <> CreateScrumBoard name description options) ->
      requestOf (newClient (withWallet w cfg)) call
      = requestOf (newClient cfg) call).
Proof.
  destruct call; repeat split; try reflexivity.
  intros H. exfalso. eapply H. reflexivity.
Qed.

(** A listing that is an object without [items] (and so is not an array
    either) is not an error: no task is read from it, so that the report is
    empty and its rewards are zero, while [totalTasks] still repeats the
    [total] of the object, or is 0 when that is falsy. *)
Theorem report_without_items {B} (board : B) (n : JsValue) :
  exists rep,
    aggregate board (Envelope ItemsMissing n) = Return rep
    /\ todo (report rep) = [] /\ doing (report rep) = []
    /\ done (report rep) = [] /\ assignees rep = []
    /\ rewards rep = mkRewards 0 0 0
    /\ totalTasks (report rep) = (if truthy n then n else JNum 0).
Proof.
  eexists. split; [reflexivity|]. repeat split.
  simpl. unfold js_or. simpl.
  destruct (truthy n) eqn:E; rewrite ?E; reflexivity.
Qed.

(** * Further properties of the skill *)

Section SkillSequences.

Context {Net : Type}.
Variable send : Request -> Net -> Response * Net.

Lemma skillCall_step (st : State Net) call :
  clientOfConfig st ->
  guardPasses (config st) ->
  skillCall send call st
  = clientCall send (newClient (config st)) call
      (mkState (config st) (Some (newClient (config st))) (net st) (sent st)).
Proof.
  intros [Hc|Hc] Hg.
  - apply skillCall_initializes; assumption.
  - rewrite (skillCall_with_client send st _ call Hc), !clientCall_run.
    simpl. rewrite Hc. reflexivity.
Qed.

(** With a configuration that passes the guard, every method call sends
    exactly one request, built by the one client made from the
    configuration: calls that fail upstream are neither repeated nor do
    they keep later calls from being sent, and none of them throws the
    configuration error. *)
Theorem every_call_sends_one_request (calls : list Call) :
  forall st : State Net,
  clientOfConfig st ->
  guardPasses (config st) ->
  sent (snd (runCalls send calls st))
  = sent st ++ map (requestOf (newClient (config st))) calls
  /\ length (fst (runCalls send calls st)) = length calls
  /\ config (snd (runCalls send calls st)) = config st
  /\ clientOfConfig (snd (runCalls send calls st))
  /\ Forall (fun o => forall e, o = Throw e -> message e <> configErrorMessage)
       (fst (runCalls send calls st)).
Proof.
  induction calls as [|call rest IH]; intros st Hwf Hg; simpl.
  - rewrite app_nil_r. repeat split; [exact Hwf | constructor].
  - rewrite (skillCall_step st call Hwf Hg).
    pose proof (clientCall_not_config_error send (newClient (config st)) call
                  (mkState (config st) (Some (newClient (config st)))
                     (net st) (sent st))) as Hne.
    rewrite clientCall_run in Hne |- *. cbn [fst snd net sent config client] in *.
    match goal with |- context [runCalls send rest ?s] => set (st1 := s) in * end.
    destruct (IH st1 ltac:(right; reflexivity) Hg) as (Hs & Hl & Hcfg & Hw & Hf).
    destruct (runCalls send rest st1) as [os st'] eqn:Hrun.
    cbn [fst snd] in *. subst st1. cbn [sent config] in *.
    rewrite Hs, <- app_assoc. repeat split; try assumption.
    + simpl. rewrite Hl. reflexivity.
    + constructor; assumption.
Qed.

Lemma runCalls_no_credentials (calls : list Call) (st : State Net) :
  client st = None ->
  truthy (access_token (config st)) = false ->
  truthy (admin_key (config st)) = false ->
  truthy (user_id (config st)) = false ->
  truthy (usr (config st)) = false ->
  runCalls send calls st
  = (map (fun _ => Throw (mkError "Error" configErrorMessage)) calls, st).
Proof.
  intros Hc H1 H2 H3 H4. induction calls as [|call rest IH]; simpl.
  - reflexivity.
  - rewrite (skillCall_fails_fast send st call Hc H1 H2 H3 H4), IH. reflexivity.
Qed.

(** With nothing to authenticate with, no call ever reaches the network:
    each of them, not only the first, throws the configuration error, and
    the skill stays as it was. *)
Theorem no_credentials_no_request (calls : list Call) (st : State Net) :
  client st = None ->
  truthy (access_token (config st)) = false ->
  truthy (admin_key (config st)) = false ->
  truthy (user_id (config st)) = false ->
  truthy (usr (config st)) = false ->
  runCalls send calls st
  = (map (fun _ => Throw (mkError "Error" configErrorMessage)) calls, st).
Proof. apply runCalls_no_credentials. Qed.


Lemma skillCall_rejected (st : State Net) c call detail msg n :
  client st = Some c ->
  send (requestOf c call) (net st) = (Rejected detail msg, n) ->
  skillCall send call st
  = (Throw (mkError "Error"
              (failurePrefix call
               +:+ (if truthy detail then toString detail else msg))),
     mkState (config st) (Some c) n (sent st ++ [requestOf c call])).
Proof.
  intros Hc Hs.
  rewrite (skillCall_with_client send st c call Hc), clientCall_run, Hs.
  cbn [fst snd]. rewrite Hc. unfold js_or.
  destruct (truthy detail); reflexivity.
Qed.

(** When the service rejects a call, the method throws one error whose
    message is the name of the operation followed by the detail the service
    gave, or by the message of the transport when there is no detail; the
    request is on record once. *)
Theorem rejected_call_is_wrapped (st : State Net) c call detail msg n :
  client st = Some c ->
  send (requestOf c call) (net st) = (Rejected detail msg, n) ->
  skillCall send call st
  = (Throw (mkError "Error"
              (failurePrefix call
               +:+ (if truthy detail then toString detail else msg))),
     mkState (config st) (Some c) n (sent st ++ [requestOf c call])).
Proof. apply skillCall_rejected. Qed.


(** The report fetches the board, then the first hundred tasks of that
    board, and aggregates what it got; nothing else is sent. *)
Theorem report_fetches_board_then_tasks (st : State Net) c scrumId board tasks n1 n2 :
  client st = Some c ->
  send (requestOf c (GetScrumBoard scrumId)) (net st) = (Resolved board, n1) ->
  send (requestOf c (GetTasksForScrum scrumId JUndefined JUndefined)) n1
  = (Resolved tasks, n2) ->
  generateSprintReport send scrumId st
  = (aggregate board (asTasksBody tasks),
     mkState (config st) (Some c) n2
       (sent st ++ [requestOf c (GetScrumBoard scrumId);
                    requestOf c (GetTasksForScrum scrumId JUndefined JUndefined)]))
  /\ req_params (requestOf c (GetTasksForScrum scrumId JUndefined JUndefined))
       !! "limit" = Some (JNum 100)
  /\ req_params (requestOf c (GetTasksForScrum scrumId JUndefined JUndefined))
       !! "offset" = Some (JNum 0)
  /\ req_params (requestOf c (GetTasksForScrum scrumId JUndefined JUndefined))
       !! "scrum_id" = Some scrumId.
Proof.
  intros Hc H1 H2. split.
  - unfold generateSprintReport, bind, getScrumBoard, getTasksForScrum, liftOutcome.
    rewrite (skillCall_with_client send st c _ Hc), clientCall_run, H1.
    cbn [fst snd].
    erewrite skillCall_with_client by (simpl; exact Hc).
    rewrite clientCall_run. cbn [fst snd net sent config client].
    rewrite H2, Hc, <- app_assoc. reflexivity.
  - simpl. unfold buildParams.
    destruct (truthy (userId c));
      repeat split; rewrite ?lookup_insert_ne by discriminate; reflexivity.
Qed.

(** When the board cannot be fetched the report gives up there: the error
    is that of the board, and the tasks are never asked for. *)
Theorem report_stops_at_failed_board (st : State Net) c scrumId detail msg n1 :
  client st = Some c ->
  send (requestOf c (GetScrumBoard scrumId)) (net st) = (Rejected detail msg, n1) ->
  generateSprintReport send scrumId st
  = (Throw (mkError "Error"
              ("Failed to get scrum board: "
               +:+ (if truthy detail then toString detail else msg))),
     mkState (config st) (Some c) n1
       (sent st ++ [requestOf c (GetScrumBoard scrumId)])).
Proof.
  intros Hc H1.
  unfold generateSprintReport, bind, getScrumBoard.
  rewrite (skillCall_rejected st c _ detail msg n1 Hc H1). reflexivity.
Qed.

(** A [null] body for the tasks is the one answer the report cannot take:
    it throws a [TypeError], after both requests have gone out. *)
Theorem report_of_null_listing (st : State Net) c scrumId board n1 n2 :
  client st = Some c ->
  send (requestOf c (GetScrumBoard scrumId)) (net st) = (Resolved board, n1) ->
  send (requestOf c (GetTasksForScrum scrumId JUndefined JUndefined)) n1
  = (Resolved (DScalar JNull), n2) ->
  fst (generateSprintReport send scrumId st) = Throw (TypeError_null "total")
  /\ length (sent (snd (generateSprintReport send scrumId st)))
     = (length (sent st) + 2)%nat.
Proof.
  intros Hc H1 H2.
  unfold generateSprintReport, bind, getScrumBoard, getTasksForScrum, liftOutcome.
  rewrite (skillCall_with_client send st c _ Hc), clientCall_run, H1.
  cbn [fst snd].
  erewrite skillCall_with_client by (simpl; exact Hc).
  rewrite clientCall_run. cbn [fst snd net sent config client].
  rewrite H2. cbn [fst snd sent]. split; [reflexivity|].
  rewrite !length_app. simpl. lia.
Qed.

End SkillSequences.

Section SkillBatches.

Context {Net : Type}.
Variable send : Request -> Net -> Response * Net.

(** Without credentials the import does not throw either: every issue gets
    an entry that records the configuration error, nothing is sent, and
    the skill stays as it was. *)
Theorem import_without_credentials (githubIssues : list Issue)
    (scrumId defaultReward : JsValue) (st : State Net) :
  client st = None ->
  truthy (access_token (config st)) = false ->
  truthy (admin_key (config st)) = false ->
  truthy (user_id (config st)) = false ->
  truthy (usr (config st)) = false ->
  addGithubIssuesToSprint send githubIssues scrumId defaultReward st
  = (Return (map (NotImported configErrorMessage) githubIssues), st).
Proof.
  intros Hc H1 H2 H3 H4. unfold addGithubIssuesToSprint.
  change (map (NotImported configErrorMessage) githubIssues)
    with ([] ++ map (NotImported configErrorMessage) githubIssues).
  generalize (@nil ImportResult) as acc.
  induction githubIssues as [|issue rest IH]; intros acc; simpl.
  - rewrite app_nil_r. reflexivity.
  - unfold bind.
    rewrite (importIssue_failed send scrumId defaultReward issue st st
               (mkError "Error" configErrorMessage)).
    + rewrite IH, <- app_assoc. reflexivity.
    + unfold createTask. apply skillCall_fails_fast; assumption.
Qed.

(** With a client in place the import sends exactly one request per issue,
    in input order, whatever the service answers; each of them creates a
    task in stage ['todo'], assigned to the assignee of the issue (to
    nobody when it has none), that carries the default reward, or no reward
    field when none was given. *)
Theorem import_requests (githubIssues : list Issue)
    (scrumId defaultReward : JsValue) (st : State Net) (c : Client) :
  client st = Some c ->
  sent (snd (addGithubIssuesToSprint send githubIssues scrumId defaultReward st))
  = sent st ++ map (issueRequest c scrumId defaultReward) githubIssues
  /\ Forall (fun issue =>
       exists payload,
         req_payload (issueRequest c scrumId defaultReward issue) = Some payload
         /\ payload !! "reward"
            = (if decide (defaultReward = JUndefined) then None
               else Some defaultReward)
         /\ payload !! "stage" = Some (JStr "todo")
         /\ payload !! "assignee"
            = Some (if truthy (issue_assignee issue) then issue_assignee issue
                    else JStr ""))
       githubIssues.
Proof.
  intros Hc. split.
  - unfold addGithubIssuesToSprint.
    destruct (importLoop_attempts send scrumId defaultReward githubIssues [] st)
      as (rs & st' & Hloop & Hatt).
    rewrite Hloop. cbn [snd].
    apply (import_sends_one_request_per_issue send _ _ _ _ _ _ _ Hc Hatt).
  - apply Forall_forall. intros issue _. eexists. split; [reflexivity|].
    split; [apply createTask_payload_reward|].
    destruct (createTask_payload_lookups scrumId (issueDescription issue)
                (defaultParam (JStr "") (js_or (issue_assignee issue) (JStr "")))
                defaultReward (defaultParam (JStr "") (issueNotes issue)))
      as (_ & _ & _ & Hstage & Hassignee & _).
    split; [exact Hstage|]. rewrite Hassignee. f_equal.
    unfold js_or. destruct (truthy (issue_assignee issue)) eqn:E.
    + rewrite truthy_defaultParam_empty, E.
      destruct (issue_assignee issue); try discriminate E; reflexivity.
    + reflexivity.
Qed.

(** A weekly sprint is a board named after the week that anybody may
    assign tasks on, while its tasks are neither public nor open to public
    deletion.  The name spells the week number as [String] prints it, which
    for a number is its decimal numeral as long as it is a safe integer. *)
Theorem weekly_sprint_request (st : State Net) (c : Client)
    (weekNumber description : JsValue) :
  client st = Some c ->
  printedInFull weekNumber ->
  exists r payload,
    sent (snd (createWeeklySprint send weekNumber description st))
    = sent st ++ [r]
    /\ req_method r = POST /\ req_path r = "/scrum"
    /\ req_payload r = Some payload
    /\ payload !! "name"
       = Some (JStr ("Week " +:+ toString weekNumber +:+ " Sprint"))
    /\ payload !! "description" = Some description
    /\ payload !! "public_assigning" = Some (JBool true)
    /\ payload !! "public_tasks" = Some (JBool false)
    /\ payload !! "public_delete_tasks" = Some (JBool false).
Proof.
  intros Hc _. unfold createWeeklySprint, createScrumBoard.
  rewrite (skillCall_with_client send st c _ Hc), clientCall_run.
  eexists _, _. cbn [snd sent]. repeat split.
Qed.

End SkillBatches.

(** * Loading *)

(** A configuration file that is missing, or that does not parse, is no
    error when the skill is constructed: the skill starts from the empty
    configuration, and it is its method calls that fail, each with the
    configuration error and without a request. *)
Theorem missing_config_fails_at_the_calls {Net : Type}
    (send : Request -> Net -> Response * Net)
    (JSON_parse : string -> ParseResult) (file : option string) (n : Net) :
  file = None
  \/ (exists content msg,
        file = Some content /\ JSON_parse content = SyntaxError msg) ->
  exists st0,
    newSkill JSON_parse file n = Some st0
    /\ config st0 = emptyConfig /\ client st0 = None /\ sent st0 = []
    /\ forall calls,
         runCalls send calls st0
         = (map (fun _ => Throw (mkError "Error" configErrorMessage)) calls, st0).
Proof.
  intros Hfile.
  assert (Hload : loadConfig JSON_parse file = Some emptyConfig).
  { destruct Hfile as [->|(content & msg & -> & Hparse)]; simpl;
      rewrite ?Hparse; reflexivity. }
  exists (mkState emptyConfig None n []). unfold newSkill. rewrite Hload.
  repeat split. intros calls.
  apply runCalls_no_credentials; reflexivity.
Qed.

(** * Instances *)

Lemma missing_config_fails_at_the_calls_witness :
  exists st0,
    newSkill (fun _ => SyntaxError "Unexpected token") (Some "{ oops") 0%nat
    = Some st0
    /\ runCalls secondFails [GetTask (JStr "t-1"); ListScrumBoards JUndefined JUndefined] st0
       = ([Throw (mkError "Error" configErrorMessage);
           Throw (mkError "Error" configErrorMessage)], st0).
Proof.
  destruct (missing_config_fails_at_the_calls secondFails
              (fun _ => SyntaxError "Unexpected token") (Some "{ oops") 0%nat
              (or_intror (ex_intro _ "{ oops"
                 (ex_intro _ "Unexpected token" (conj eq_refl eq_refl)))))
    as (st0 & Hnew & _ & _ & _ & Hrun).
  exists st0. split; [exact Hnew|]. apply Hrun.
Defined.

Lemma every_call_sends_one_request_witness :
  sent (snd (runCalls scripted
               [GetScrumBoard (JStr "b-1"); DeleteTask (JStr "t-1")]
               (mkState tokenOnly None [] [])))
  = map (requestOf (newClient tokenOnly))
      [GetScrumBoard (JStr "b-1"); DeleteTask (JStr "t-1")].
Proof.
  apply (proj1 (every_call_sends_one_request scripted
                  [GetScrumBoard (JStr "b-1"); DeleteTask (JStr "t-1")]
                  (mkState tokenOnly None [] [])
                  (or_introl eq_refl) (or_introl eq_refl))).
Defined.

Lemma no_credentials_no_request_witness :
  runCalls scripted [GetScrumBoard (JStr "b-1"); DeleteTask (JStr "t-1")]
    (mkState emptyConfig None [Resolved (DBoard sampleBoard)] [])
  = ([Throw (mkError "Error" configErrorMessage);
      Throw (mkError "Error" configErrorMessage)],
     mkState emptyConfig None [Resolved (DBoard sampleBoard)] []).
Proof.
  apply (no_credentials_no_request scripted
           [GetScrumBoard (JStr "b-1"); DeleteTask (JStr "t-1")]
           (mkState emptyConfig None [Resolved (DBoard sampleBoard)] [])
           eq_refl eq_refl eq_refl eq_refl eq_refl).
Defined.

Lemma rejected_call_is_wrapped_witness :
  fst (skillCall scripted (GetTask (JStr "t-1"))
         (mkState tokenOnly (Some (newClient tokenOnly))
            [Rejected (JStr "Task not found") "Request failed with status code 404"]
            []))
  = Throw (mkError "Error" "Failed to get task: Task not found").
Proof.
  rewrite (rejected_call_is_wrapped scripted
             (mkState tokenOnly (Some (newClient tokenOnly))
                [Rejected (JStr "Task not found") "Request failed with status code 404"]
                [])
             (newClient tokenOnly) (GetTask (JStr "t-1"))
             (JStr "Task not found") "Request failed with status code 404" []
             eq_refl eq_refl).
  reflexivity.
Defined.

Lemma report_fetches_board_then_tasks_witness :
  fst (generateSprintReport scripted (JStr "b-1")
         (mkState tokenOnly (Some (newClient tokenOnly))
            [Resolved (DBoard sampleBoard);
             Resolved (DTasks (BareArray [sampleTask (JStr "done") (JNum 21)]))]
            []))
  = aggregate (DBoard sampleBoard)
      (BareArray [sampleTask (JStr "done") (JNum 21)]).
Proof.
  rewrite (proj1 (report_fetches_board_then_tasks scripted
             (mkState tokenOnly (Some (newClient tokenOnly))
                [Resolved (DBoard sampleBoard);
                 Resolved (DTasks (BareArray [sampleTask (JStr "done") (JNum 21)]))]
                [])
             (newClient tokenOnly) (JStr "b-1") (DBoard sampleBoard)
             (DTasks (BareArray [sampleTask (JStr "done") (JNum 21)]))
             [Resolved (DTasks (BareArray [sampleTask (JStr "done") (JNum 21)]))]
             [] eq_refl eq_refl eq_refl)).
  reflexivity.
Defined.

Lemma report_stops_at_failed_board_witness :
  length (sent (snd (generateSprintReport scripted (JStr "b-1")
                       (mkState tokenOnly (Some (newClient tokenOnly))
                          [Rejected JUndefined "Network Error";
                           Resolved (DTasks (BareArray []))]
                          []))))
  = 1%nat.
Proof.
  rewrite (report_stops_at_failed_board scripted
             (mkState tokenOnly (Some (newClient tokenOnly))
                [Rejected JUndefined "Network Error";
                 Resolved (DTasks (BareArray []))]
                [])
             (newClient tokenOnly) (JStr "b-1") JUndefined "Network Error"
             [Resolved (DTasks (BareArray []))] eq_refl eq_refl).
  reflexivity.
Defined.

Lemma report_of_null_listing_witness :
  fst (generateSprintReport scripted (JStr "b-1")
         (mkState tokenOnly (Some (newClient tokenOnly))
            [Resolved (DBoard sampleBoard); Resolved (DScalar JNull)] []))
  = Throw (TypeError_null "total").
Proof.
  apply (proj1 (report_of_null_listing scripted
                  (mkState tokenOnly (Some (newClient tokenOnly))
                     [Resolved (DBoard sampleBoard); Resolved (DScalar JNull)] [])
                  (newClient tokenOnly) (JStr "b-1") (DBoard sampleBoard)
                  [Resolved (DScalar JNull)] [] eq_refl eq_refl eq_refl)).
Defined.

Lemma import_without_credentials_witness :
  addGithubIssuesToSprint scripted [sampleIssue 131; sampleIssue 132]
    (JStr "b-1") (JNum 1000) (mkState emptyConfig None [] [])
  = (Return [NotImported configErrorMessage (sampleIssue 131);
             NotImported configErrorMessage (sampleIssue 132)],
     mkState emptyConfig None [] []).
Proof.
  apply (import_without_credentials scripted [sampleIssue 131; sampleIssue 132]
           (JStr "b-1") (JNum 1000) (mkState emptyConfig None [] [])
           eq_refl eq_refl eq_refl eq_refl eq_refl).
Defined.

Lemma import_requests_witness :
  sent (snd (addGithubIssuesToSprint secondFails
               [sampleIssue 131; sampleIssue 132; sampleIssue 133]
               (JStr "b-1") JUndefined
               (mkState tokenOnly (Some (newClient tokenOnly)) 0%nat [])))
  = map (issueRequest (newClient tokenOnly) (JStr "b-1") JUndefined)
      [sampleIssue 131; sampleIssue 132; sampleIssue 133].
Proof.
  apply (proj1 (import_requests secondFails
                  [sampleIssue 131; sampleIssue 132; sampleIssue 133]
                  (JStr "b-1") JUndefined
                  (mkState tokenOnly (Some (newClient tokenOnly)) 0%nat [])
                  (newClient tokenOnly) eq_refl)).
Defined.

Lemma printedInFull_12 : printedInFull (JNum 12).
Proof. vm_compute. discriminate. Defined.

Lemma weekly_sprint_request_witness :
  exists r payload,
    sent (snd (createWeeklySprint scripted (JNum 12) (JStr "Release work")
                 (mkState tokenOnly (Some (newClient tokenOnly)) [] [])))
    = [r]
    /\ req_payload r = Some payload
    /\ payload !! "name" = Some (JStr "Week 12 Sprint").
Proof.
  destruct (weekly_sprint_request scripted
              (mkState tokenOnly (Some (newClient tokenOnly)) [] [])
              (newClient tokenOnly) (JNum 12) (JStr "Release work") eq_refl
              printedInFull_12)
    as (r & payload & Hsent & _ & _ & Hp & Hname & _).
  exists r, payload. split; [exact Hsent|]. split; [exact Hp | exact Hname].
Defined.
